(** * MedBox device backend (medbox_db.py): model and verified properties

    The backend keeps four dictionaries keyed by device id (medication
    snapshots, pending commands, command history, device metadata), all
    guarded by one [threading.Lock].  Every request handler is a short
    sequence of [with lock:] blocks.  The model keeps that structure: a
    handler is a program whose steps are the critical sections of the
    source, so the same definitions give the sequential behaviour of a
    request ([run]) and the interleavings of concurrent requests
    ([run_schedule]).

    The JSON files written by [save_json_file] are output only: after
    start-up no handler reads them back and a failed write is swallowed,
    so they do not influence the dictionaries and are left out. *)

From Stdlib Require Import ZArith Ascii.
From Stdlib Require String.
From stdpp Require Import base option list gmap strings.

Set Warnings "-register-all".
Open Scope Z_scope.

(** ** Python values

    What [request.get_json()] can return and what the dictionaries hold.
    A finite float is [VFloat m e], the number [m * 2^e]. *)

Inductive value : Type :=
| VNone
| VBool (b : bool)
| VInt (z : Z)
| VFloat (m e : Z)
| VStr (s : string)
| VList (l : list value)
| VDict (d : list (string * value)).

(** A [dict] with string keys, in insertion order. *)
Abbreviation dict := (list (string * value)).

(** Python truthiness, as used by [if not x] and [bool(x)]. *)
Definition truthy (v : value) : bool :=
  match v with
  | VNone => false
  | VBool b => b
  | VInt z => negb (z =? 0)
  | VFloat m _ => negb (m =? 0)
  | VStr s => negb (String.eqb s "")
  | VList l => match l with [] => false | _ => true end
  | VDict d => match d with [] => false | _ => true end
  end.

(** [d.get(k)] on a dict: the first binding of [k]. *)
Fixpoint dict_get (k : string) (d : dict) : option value :=
  match d with
  | [] => None
  | (k', v) :: d' => if String.eqb k k' then Some v else dict_get k d'
  end.

(** [k in d]. *)
Definition dict_mem (k : string) (d : dict) : bool :=
  match dict_get k d with Some _ => true | None => false end.

(** [d[k] = v]: replaces the value in place when [k] is bound and appends
    the binding otherwise. *)
Fixpoint dict_set (k : string) (v : value) (d : dict) : dict :=
  match d with
  | [] => [(k, v)]
  | (k', v') :: d' =>
      if String.eqb k k' then (k', v) :: d' else (k', v') :: dict_set k v d'
  end.

(** [d.get(k)] as a Python value: [None] when the key is absent. *)
Definition py_get (k : string) (d : dict) : value :=
  match dict_get k d with Some v => v | None => VNone end.

(** [k in data] for an arbitrary value: key lookup on a dict, element
    test on a list, substring test on a str, [TypeError] ([None] here) on
    anything else. *)
Fixpoint is_substring (k s : string) : bool :=
  if String.prefix k s then true
  else match s with
       | EmptyString => false
       | String _ s' => is_substring k s'
       end.

Definition py_contains (k : string) (data : value) : option bool :=
  match data with
  | VDict d => Some (dict_mem k d)
  | VList l =>
      Some (existsb (fun v => match v with VStr s => String.eqb s k | _ => false end) l)
  | VStr s => Some (is_substring k s)
  | _ => None
  end.

(** [data[k]] with a str subscript: defined on dicts that bind [k]; a
    missing key, a list or a str subscripted by a str, and every other
    value raise. *)
Definition py_getitem (k : string) (data : value) : option value :=
  match data with
  | VDict d => dict_get k d
  | _ => None
  end.

(** ** Dictionary keys

    Device ids taken from the URL or the query string are strings, but
    [upload_medbox] uses whatever truthy value the JSON body carries.
    Python identifies [1], [1.0] and [True] as keys, so numeric keys are
    kept in the normal form [m * 2^e] with [m] odd. *)

Inductive pykey : Type :=
| KNone
| KStr (s : string)
| KNum (m e : Z).

Fixpoint odd_part (p : positive) : positive * Z :=
  match p with
  | xO q => let '(r, k) := odd_part q in (r, k + 1)
  | _ => (p, 0)
  end.

Definition knum (m e : Z) : pykey :=
  match m with
  | Z0 => KNum 0 0
  | Zpos p => let '(r, k) := odd_part p in KNum (Zpos r) (e + k)
  | Zneg p => let '(r, k) := odd_part p in KNum (Zneg r) (e + k)
  end.

(** The key a value hashes to; lists and dicts are unhashable. *)
Definition to_key (v : value) : option pykey :=
  match v with
  | VStr s => Some (KStr s)
  | VInt z => Some (knum z 0)
  | VBool b => Some (knum (if b then 1 else 0) 0)
  | VFloat m e => Some (knum m e)
  | VNone => Some KNone
  | VList _ | VDict _ => None
  end.

#[global] Instance pykey_eq_dec : EqDecision pykey.
Proof. solve_decision. Defined.

#[global] Instance pykey_countable : Countable pykey.
Proof.
  refine (inj_countable'
            (fun k => match k with
                      | KNone => inl ()
                      | KStr s => inr (inl s)
                      | KNum m e => inr (inr (m, e))
                      end)
            (fun x => match x with
                      | inl _ => KNone
                      | inr (inl s) => KStr s
                      | inr (inr (m, e)) => KNum m e
                      end) _).
  intros []; reflexivity.
Defined.

(** ** Time

    [datetime.utcnow()] yields a naive datetime; [isoformat()] prints it
    as [YYYY-MM-DDTHH:MM:SS], followed by [.ffffff] when the microsecond
    field is not zero. *)

Record datetime : Type := Datetime {
  year : Z; month : Z; day : Z;
  hour : Z; minute : Z; second : Z; microsecond : Z
}.

Definition digit (n : Z) : ascii := ascii_of_nat (48 + Z.to_nat (n mod 10)).

Fixpoint zero_pad (width : nat) (n : Z) : string :=
  match width with
  | O => ""
  | S w => zero_pad w (n / 10) +:+ String (digit n) ""
  end.

Definition isoformat (t : datetime) : string :=
  zero_pad 4 (year t) +:+ "-" +:+ zero_pad 2 (month t) +:+ "-" +:+ zero_pad 2 (day t)
  +:+ "T" +:+ zero_pad 2 (hour t) +:+ ":" +:+ zero_pad 2 (minute t)
  +:+ ":" +:+ zero_pad 2 (second t)
  +:+ (if microsecond t =? 0 then "" else "." +:+ zero_pad 6 (microsecond t)).

(** Chronological order of datetimes: lexicographic on the fields. *)
Definition dt_fields (t : datetime) : list Z :=
  [year t; month t; day t; hour t; minute t; second t; microsecond t].

Fixpoint lex_leb (a b : list Z) : bool :=
  match a, b with
  | x :: a', y :: b' =>
      if x <? y then true else if y <? x then false else lex_leb a' b'
  | _, _ => true
  end.

Definition dt_le (t1 t2 : datetime) : Prop :=
  lex_leb (dt_fields t1) (dt_fields t2) = true.

(** ** The runtime the source relies on

    The wall clock and two Python builtins the handlers call are not
    defined by the repository; they are parameters of the model.
    [clock n] is the datetime returned by the [n]-th call of
    [datetime.utcnow()] since start-up, [str_strip] is [str.strip()] and
    [int_of_str] is [int(s)] on a str ([None] when it raises
    [ValueError]). *)

Class Runtime : Type := {
  clock : nat -> datetime;
  str_strip : string -> string;
  int_of_str : string -> option Z
}.

(** A runtime for the worked examples.  Its clock starts on 18 Nov
    2025 at 21:28:49 and advances one microsecond per reading until the
    second is over; its [str.strip()] and [int()] are the ASCII ones
    (blanks are space and the control characters 9 to 13, numbers are an
    optional sign followed by decimal digits). *)

Definition is_blank (c : ascii) : bool :=
  let n := nat_of_ascii c in
  Nat.eqb n 32 || (Nat.leb 9 n && Nat.leb n 13).

Fixpoint lstrip (s : string) : string :=
  match s with
  | EmptyString => EmptyString
  | String c s' => if is_blank c then lstrip s' else s
  end.

Fixpoint rstrip (s : string) : string :=
  match s with
  | EmptyString => EmptyString
  | String c s' =>
      match rstrip s' with
      | EmptyString => if is_blank c then EmptyString else String c EmptyString
      | r => String c r
      end
  end.

Fixpoint decimal (acc : Z) (s : string) : option Z :=
  match s with
  | EmptyString => Some acc
  | String c s' =>
      let n := Z.of_nat (nat_of_ascii c) in
      if (48 <=? n) && (n <=? 57) then decimal (10 * acc + (n - 48)) s' else None
  end.

Definition ascii_int (s : string) : option Z :=
  match rstrip (lstrip s) with
  | EmptyString => None
  | String c r =>
      if Ascii.eqb c "-" then
        match r with EmptyString => None | _ => Z.opp <$> decimal 0 r end
      else if Ascii.eqb c "+" then
        match r with EmptyString => None | _ => decimal 0 r end
      else decimal 0 (String c r)
  end.

Definition demo_runtime : Runtime := {|
  clock := fun n => Datetime 2025 11 18 21 28 49 (Z.min (Z.of_nat n) 999999);
  str_strip := fun s => rstrip (lstrip s);
  int_of_str := ascii_int
|}.

(** Data of the worked examples: the upload and the add command of the
    specification's example, an upload without [meds], an add command
    with an impossible time of day, and two more commands. *)

Definition demo_upload : dict :=
  [("deviceId", VStr "X"); ("count", VInt 1);
   ("meds", VList [VDict [("id", VInt 1); ("name", VStr "Aspirin"); ("qty", VInt 2);
                          ("hour", VInt 8); ("minute", VInt 0); ("led", VInt 1);
                          ("enabled", VBool true)]])].

Definition demo_upload_no_meds : dict :=
  [("deviceId", VStr "X"); ("count", VInt 1)].

Definition demo_upload_empty_id : dict :=
  [("deviceId", VStr ""); ("count", VInt 0); ("meds", VList [])].

Definition demo_upload_zero : dict :=
  [("deviceId", VStr "X"); ("count", VInt 0); ("meds", VList [])].

Definition demo_add_request : value :=
  VDict [("name", VStr "Ibuprofen"); ("qty", VInt 1); ("hour", VInt 20);
         ("minute", VInt 30); ("led", VInt 2)].

Definition demo_add : dict :=
  [("op", VStr "add"); ("name", VStr "Ibuprofen"); ("qty", VInt 1);
   ("hour", VInt 20); ("minute", VInt 30); ("led", VInt 2); ("enabled", VBool true)].

Definition demo_bad_time_request : value :=
  VDict [("name", VStr "Aspirin"); ("qty", VInt 2); ("hour", VInt 99);
         ("minute", VInt 75); ("led", VInt 1)].

Definition demo_bad_time : dict :=
  [("op", VStr "add"); ("name", VStr "Aspirin"); ("qty", VInt 2);
   ("hour", VInt 99); ("minute", VInt 75); ("led", VInt 1); ("enabled", VBool true)].

Definition demo_edit : dict :=
  [("op", VStr "edit"); ("id", VInt 1); ("qty", VInt 3)].

Definition demo_delete : dict :=
  [("op", VStr "delete"); ("id", VInt 1)].

(** More example data: an edit request with a time that is no number
    and a key the server does not know, a delete request whose id is a
    padded string, an add request without [led], and an upload whose
    device id is a number. *)

Definition demo_edit_request : value :=
  VDict [("id", VInt 1); ("hour", VStr "8pm"); ("color", VStr "red")].

Definition demo_edit_queued : dict :=
  [("op", VStr "edit"); ("id", VInt 1); ("hour", VStr "8pm")].

Definition demo_delete_request : value :=
  VDict [("id", VStr " 7 "); ("why", VStr "expired")].

Definition demo_add_incomplete : value :=
  VDict [("name", VStr "Aspirin"); ("qty", VInt 2); ("hour", VInt 8); ("minute", VInt 0)].

Definition demo_upload_numeric : dict :=
  [("deviceId", VInt 5); ("count", VInt 0); ("meds", VList [])].

(** ** Server state: the four in-memory dictionaries of the module, and
    the number of clock readings made so far. *)

Record state : Type := State {
  devices_meds : gmap pykey dict;
  devices_commands_pending : gmap pykey (list dict);
  devices_commands_history : gmap pykey (list dict);
  devices_meta : gmap pykey dict;
  clock_reads : nat
}.

Definition with_meds (m : gmap pykey dict) (s : state) : state :=
  State m (devices_commands_pending s) (devices_commands_history s)
        (devices_meta s) (clock_reads s).

Definition with_pending (p : gmap pykey (list dict)) (s : state) : state :=
  State (devices_meds s) p (devices_commands_history s)
        (devices_meta s) (clock_reads s).

Definition with_history (h : gmap pykey (list dict)) (s : state) : state :=
  State (devices_meds s) (devices_commands_pending s) h
        (devices_meta s) (clock_reads s).

Definition with_meta (m : gmap pykey dict) (s : state) : state :=
  State (devices_meds s) (devices_commands_pending s)
        (devices_commands_history s) m (clock_reads s).

(** The state of a freshly started server with no JSON files. *)
Definition empty_state : state := State ∅ ∅ ∅ ∅ 0.

(** [devices_commands_pending.get(k, [])] and its history twin. *)
Definition pending_of (k : pykey) (s : state) : list dict :=
  default [] (devices_commands_pending s !! k).

Definition history_of (k : pykey) (s : state) : list dict :=
  default [] (devices_commands_history s !! k).

(** ** HTTP responses *)

Inductive response : Type :=
| Json (status : Z) (body : value)            (* jsonify(...)[, status] *)
| Plain (status : Z) (text : string)          (* return "text", status *)
| Aborted (status : Z)                        (* abort(status) *)
| RedirectTo (endpoint : string) (device_id : option string)
| Rendered (template : string) (context : dict).

(** ** Handler programs

    A program runs unlocked code, which touches only the request's own
    data, between critical sections.  [WithLock body k] is one
    [with lock:] block: [body] is its whole effect on the shared state and
    yields [None] when the block raises (the lock is released and the
    exception propagates).  [NowIso] is a clock reading made outside the
    lock.  [Raise] is an uncaught exception, which Flask answers with
    HTTP 500. *)

Inductive prog (R : Type) : Type :=
| Ret (r : R)
| Raise
| WithLock {X : Type} (body : state -> state * option X) (k : X -> prog R)
| NowIso (k : string -> prog R).

Arguments Ret {R} r.
Arguments Raise {R}.
Arguments WithLock {R X} body k.
Arguments NowIso {R} k.

Fixpoint bind {R S : Type} (p : prog R) (f : R -> prog S) : prog S :=
  match p with
  | Ret r => f r
  | Raise => Raise
  | WithLock body k => WithLock body (fun x => bind (k x) f)
  | NowIso k => NowIso (fun t => bind (k t) f)
  end.

Notation "p ;;; q" := (bind p (fun _ => q))
  (at level 100, q at level 200, right associativity).

Section Model.
Context `{Runtime}.

(** [now_iso()]: the next clock reading, printed. *)
Definition now_iso (s : state) : state * string :=
  (State (devices_meds s) (devices_commands_pending s)
         (devices_commands_history s) (devices_meta s) (S (clock_reads s)),
   isoformat (clock (clock_reads s))).

(** [int(x)]: [None] when it raises. *)
Definition py_int (v : value) : option Z :=
  match v with
  | VInt z => Some z
  | VBool b => Some (if b then 1 else 0)
  | VFloat m e => Some (if 0 <=? e then m * 2 ^ e else Z.quot m (2 ^ (- e)))
  | VStr s => int_of_str s
  | VNone | VList _ | VDict _ => None
  end.

(** *** Semantics of programs *)

(** A whole request with no other request in between. *)
Fixpoint run {R : Type} (p : prog R) (s : state) : state * option R :=
  match p with
  | Ret r => (s, Some r)
  | Raise => (s, None)
  | WithLock body k =>
      match body s with
      | (s', Some x) => run (k x) s'
      | (s', None) => (s', None)
      end
  | NowIso k => let '(s', t) := now_iso s in run (k t) s'
  end.

(** One atomic step of a thread: a critical section or a clock reading.
    A finished thread ([Ret] or [Raise]) has no step. *)
Definition step {R : Type} (p : prog R) (s : state) : option (state * prog R) :=
  match p with
  | Ret _ | Raise => None
  | WithLock body k =>
      match body s with
      | (s', Some x) => Some (s', k x)
      | (s', None) => Some (s', Raise)
      end
  | NowIso k => let '(s', t) := now_iso s in Some (s', k t)
  end.

(** The number of times a request takes the lock. *)
Fixpoint lock_count {R : Type} (p : prog R) (s : state) : nat :=
  match p with
  | Ret _ | Raise => O
  | WithLock body k =>
      match body s with
      | (s', Some x) => S (lock_count (k x) s')
      | (_, None) => 1%nat
      end
  | NowIso k => let '(s', t) := now_iso s in lock_count (k t) s'
  end.

(** *** Device registry *)

Definition new_meta (device_id : value) (created_at : string) : dict :=
  [("deviceId", device_id);
   ("friendly_name", device_id);
   ("created_at", VStr created_at);
   ("last_seen_upload", VNone);
   ("last_seen_changes", VNone)].

Definition ensure_device_meta (device_id : value) : prog unit :=
  WithLock (fun s =>
    match to_key device_id with
    | None => (s, None)
    | Some k =>
        match devices_meta s !! k with
        | Some _ => (s, Some tt)
        | None =>
            let '(s1, t) := now_iso s in
            (with_meta (<[k := new_meta device_id t]> (devices_meta s1)) s1, Some tt)
        end
    end) Ret.

(** The second block of [update_last_seen_upload] and
    [update_last_seen_changes]: [devices_meta[device_id][field] = now_iso()].
    The right-hand side is evaluated first; a missing record is a
    [KeyError]. *)
Definition touch_section (field : string) (device_id : value)
  : state -> state * option unit :=
  fun s =>
    let '(s1, t) := now_iso s in
    match to_key device_id with
    | None => (s1, None)
    | Some k =>
        match devices_meta s1 !! k with
        | None => (s1, None)
        | Some rec =>
            (with_meta (<[k := dict_set field (VStr t) rec]> (devices_meta s1)) s1, Some tt)
        end
    end.

Definition update_last_seen_upload (device_id : value) : prog unit :=
  ensure_device_meta device_id ;;;
  WithLock (touch_section "last_seen_upload" device_id) Ret.

Definition update_last_seen_changes (device_id : value) : prog unit :=
  ensure_device_meta device_id ;;;
  WithLock (touch_section "last_seen_changes" device_id) Ret.

(** *** Command queue *)

Definition append_section (device_id : value) (cmd : dict)
  : state -> state * option unit :=
  fun s =>
    match to_key device_id with
    | None => (s, None)
    | Some k =>
        let pend :=
          match devices_commands_pending s !! k with
          | Some _ => devices_commands_pending s
          | None => <[k := []]> (devices_commands_pending s)
          end in
        (with_pending (alter (fun lst => lst ++ [cmd]) k pend) s, Some tt)
    end.

Definition enqueue_command (device_id : value) (cmd : dict) : prog unit :=
  ensure_device_meta device_id ;;;
  WithLock (append_section device_id cmd) Ret.

(** *** Device endpoints *)

Definition error_body (msg : string) : value := VDict [("error", VStr msg)].

Definition is_none (v : value) : bool :=
  match v with VNone => true | _ => false end.

Definition store_snapshot_section (device_id : value) (snapshot : dict)
  : state -> state * option unit :=
  fun s =>
    match to_key device_id with
    | None => (s, None)
    | Some k => (with_meds (<[k := snapshot]> (devices_meds s)) s, Some tt)
    end.

(** [POST /medbox/upload]; [data] is [request.get_json()]. *)
Definition upload_medbox (data : value) : prog response :=
  if negb (truthy data) then Ret (Json 400 (error_body "invalid json"))
  else
    match data with
    | VDict d =>
        let device_id := py_get "deviceId" d in
        let count := py_get "count" d in
        let meds := py_get "meds" d in
        if negb (truthy device_id) || is_none meds || is_none count
        then Ret (Json 400 (error_body "missing fields"))
        else
          NowIso (fun t =>
            let snapshot := [("timestamp", VStr t); ("count", count); ("meds", meds)] in
            ensure_device_meta device_id ;;;
            update_last_seen_upload device_id ;;;
            WithLock (store_snapshot_section device_id snapshot) (fun _ =>
            Ret (Json 200 (VDict [("status", VStr "ok");
                                  ("deviceId", device_id);
                                  ("receivedCount", count);
                                  ("storedAt", VStr t)]))))
    | _ => Raise
    end.

(** The history entry made from a delivered command. *)
Definition sent_entry (sent_time : string) (c : dict) : dict :=
  dict_set "sent_at" (VStr sent_time) (dict_set "status" (VStr "sent") c).

(** The critical section of [get_changes]: hand out the pending list,
    append a stamped copy of each command to the history, clear pending. *)
Definition drain_section (k : pykey) : state -> state * option (list dict) :=
  fun s =>
    let cmds := pending_of k s in
    let hist :=
      match devices_commands_history s !! k with
      | Some _ => devices_commands_history s
      | None => <[k := []]> (devices_commands_history s)
      end in
    let '(s1, sent_time) := now_iso s in
    let hist' :=
      fold_left
        (fun h c => alter (fun lst => lst ++ [sent_entry sent_time c]) k h)
        cmds hist in
    (with_history hist'
       (with_pending (<[k := []]> (devices_commands_pending s1)) s1),
     Some cmds).

(** [GET /medbox/changes]; [arg] is [request.args.get("deviceId")]. *)
Definition get_changes (arg : option string) : prog response :=
  match arg with
  | None => Ret (Json 400 (error_body "deviceId required"))
  | Some device_id =>
      if String.eqb device_id ""
      then Ret (Json 400 (error_body "deviceId required"))
      else
        ensure_device_meta (VStr device_id) ;;;
        update_last_seen_changes (VStr device_id) ;;;
        WithLock (drain_section (KStr device_id)) (fun cmds =>
        Ret (Json 200 (VDict [("commands", VList (map VDict cmds))])))
  end.

(** *** Operator endpoints *)

(** [any(k not in data for k in required)]; [None] when the membership
    test raises. *)
Fixpoint any_missing (required : list string) (data : value) : option bool :=
  match required with
  | [] => Some false
  | k :: rest =>
      match py_contains k data with
      | None => None
      | Some false => Some true
      | Some true => any_missing rest data
      end
  end.

Definition queued_body (device_id : string) (cmd : dict) : value :=
  VDict [("status", VStr "queued"); ("deviceId", VStr device_id); ("command", VDict cmd)].

(** The command dict built by [add_command]; [None] when a subscript or
    an [int()] conversion raises. *)
Definition build_add (data : value) : option dict :=
  name ← py_getitem "name" data;
  qty ← py_getitem "qty" data ≫= py_int;
  hr ← py_getitem "hour" data ≫= py_int;
  mn ← py_getitem "minute" data ≫= py_int;
  led ← py_getitem "led" data ≫= py_int;
  enabled ← match data with
            | VDict d => Some (match dict_get "enabled" d with
                               | Some v => truthy v
                               | None => true
                               end)
            | _ => None
            end;
  Some [("op", VStr "add"); ("name", name); ("qty", VInt qty);
        ("hour", VInt hr); ("minute", VInt mn); ("led", VInt led);
        ("enabled", VBool enabled)].

(** [POST /medbox/<device_id>/command/add]. *)
Definition add_command (device_id : string) (data : value) : prog response :=
  if negb (truthy data) then Ret (Json 400 (error_body "invalid json"))
  else
    match any_missing ["name"; "qty"; "hour"; "minute"; "led"] data with
    | None => Raise
    | Some true => Ret (Json 400 (error_body "missing fields"))
    | Some false =>
        match build_add data with
        | None => Raise
        | Some cmd =>
            enqueue_command (VStr device_id) cmd ;;;
            Ret (Json 200 (queued_body device_id cmd))
        end
    end.

(** The loop of [edit_command] copying the optional fields as given. *)
Definition copy_fields (fields : list string) (data : dict) (cmd : dict) : dict :=
  fold_left
    (fun c field =>
       match dict_get field data with
       | Some v => dict_set field v c
       | None => c
       end)
    fields cmd.

Definition build_edit (data : value) : option dict :=
  id ← py_getitem "id" data ≫= py_int;
  match data with
  | VDict d =>
      Some (copy_fields ["name"; "qty"; "hour"; "minute"; "led"; "enabled"] d
              [("op", VStr "edit"); ("id", VInt id)])
  | _ => None
  end.

(** [POST /medbox/<device_id>/command/edit]. *)
Definition edit_command (device_id : string) (data : value) : prog response :=
  if negb (truthy data) then Ret (Json 400 (error_body "invalid json"))
  else
    match py_contains "id" data with
    | None => Raise
    | Some false => Ret (Json 400 (error_body "id required"))
    | Some true =>
        match build_edit data with
        | None => Raise
        | Some cmd =>
            enqueue_command (VStr device_id) cmd ;;;
            Ret (Json 200 (queued_body device_id cmd))
        end
    end.

Definition build_delete (data : value) : option dict :=
  id ← py_getitem "id" data ≫= py_int;
  Some [("op", VStr "delete"); ("id", VInt id)].

(** [POST /medbox/<device_id>/command/delete]. *)
Definition delete_command (device_id : string) (data : value) : prog response :=
  if negb (truthy data) then Ret (Json 400 (error_body "invalid json"))
  else
    match py_contains "id" data with
    | None => Raise
    | Some false => Ret (Json 400 (error_body "id required"))
    | Some true =>
        match build_delete data with
        | None => Raise
        | Some cmd =>
            enqueue_command (VStr device_id) cmd ;;;
            Ret (Json 200 (queued_body device_id cmd))
        end
    end.

(** [GET /medbox/<device_id>/snapshot]; an empty dict stored as snapshot
    is falsy and also answered with 404. *)
Definition get_snapshot (device_id : string) : prog response :=
  WithLock (fun s => (s, Some (devices_meds s !! KStr device_id))) (fun snap =>
  match snap with
  | Some sn => if truthy (VDict sn) then Ret (Json 200 (VDict sn)) else Ret (Aborted 404)
  | None => Ret (Aborted 404)
  end).

(** [GET /medbox/<device_id>/pending]. *)
Definition get_pending (device_id : string) : prog response :=
  WithLock (fun s => (s, Some (pending_of (KStr device_id) s))) (fun pending =>
  Ret (Json 200 (VDict [("deviceId", VStr device_id);
                        ("pending", VList (map VDict pending))]))).

(** *** Dashboard routes (the HTML itself is not modelled, only the
    template and the values passed to it) *)

Definition rename_section (device_id friendly_name : string)
  : state -> state * option unit :=
  fun s =>
    match devices_meta s !! KStr device_id with
    | None => (s, None)
    | Some rec =>
        (with_meta (<[KStr device_id := dict_set "friendly_name" (VStr friendly_name) rec]>
                      (devices_meta s)) s, Some tt)
    end.

(** [POST /devices/new]; the arguments are [request.form.get(...)]. *)
Definition new_device (form_id form_name : option string) : prog response :=
  let device_id := str_strip (default "" form_id) in
  let friendly_name := str_strip (default "" form_name) in
  if String.eqb device_id "" then Ret (Plain 400 "Device ID required")
  else
    let friendly_name := if String.eqb friendly_name "" then device_id else friendly_name in
    ensure_device_meta (VStr device_id) ;;;
    WithLock (rename_section device_id friendly_name) (fun _ =>
    Ret (RedirectTo "device_detail" (Some device_id))).

Definition opt_dict (o : option dict) : value :=
  match o with Some d => VDict d | None => VNone end.

(** [GET /device/<device_id>]. *)
Definition device_detail (device_id : string) : prog response :=
  ensure_device_meta (VStr device_id) ;;;
  WithLock (fun s =>
    (s, Some (devices_meta s !! KStr device_id,
              devices_meds s !! KStr device_id,
              pending_of (KStr device_id) s,
              history_of (KStr device_id) s)))
  (fun '(meta, snap, pending, history) =>
    let snapshot :=
      match snap with
      | Some sn =>
          if truthy (VDict sn)
          then VDict [("timestamp", py_get "timestamp" sn);
                      ("count", default (VInt 0) (dict_get "count" sn));
                      ("meds", default (VList []) (dict_get "meds" sn))]
          else VNone
      | None => VNone
      end in
    Ret (Rendered "DEVICE_TEMPLATE"
           [("meta", opt_dict meta); ("snapshot", snapshot);
            ("pending", VList (map VDict pending));
            ("history", VList (map VDict history))])).

(** [POST /device/<device_id>/delete]: one [with lock:] block popping
    the device from all four dictionaries. *)
Definition delete_device_section (device_id : string) : state -> state * option unit :=
  fun s =>
    (State (delete (KStr device_id) (devices_meds s))
           (delete (KStr device_id) (devices_commands_pending s))
           (delete (KStr device_id) (devices_commands_history s))
           (delete (KStr device_id) (devices_meta s))
           (clock_reads s),
     Some tt).

Definition delete_device (device_id : string) : prog response :=
  WithLock (delete_device_section device_id) (fun _ =>
  Ret (RedirectTo "index" None)).

(** [del lst[idx]] for an index already checked to be in range. *)
Definition del_at {A : Type} (idx : Z) (lst : list A) : list A :=
  delete (Z.to_nat idx) lst.

(** [POST /device/<device_id>/pending/<int:idx>/delete]. *)
Definition delete_pending_section (device_id : string) (idx : Z)
  : state -> state * option unit :=
  fun s =>
    let lst := pending_of (KStr device_id) s in
    if (0 <=? idx) && (idx <? Z.of_nat (length lst))
    then (with_pending (<[KStr device_id := del_at idx lst]>
                          (devices_commands_pending s)) s, Some tt)
    else (s, Some tt).

Definition delete_pending (device_id : string) (idx : Z) : prog response :=
  WithLock (delete_pending_section device_id idx) (fun _ =>
  Ret (RedirectTo "device_detail" (Some device_id))).

(** [POST /device/<device_id>/history/<int:idx>/delete]. *)
Definition delete_history_section (device_id : string) (idx : Z)
  : state -> state * option unit :=
  fun s =>
    let lst := history_of (KStr device_id) s in
    if (0 <=? idx) && (idx <? Z.of_nat (length lst))
    then (with_history (<[KStr device_id := del_at idx lst]>
                          (devices_commands_history s)) s, Some tt)
    else (s, Some tt).

Definition delete_history (device_id : string) (idx : Z) : prog response :=
  WithLock (delete_history_section device_id idx) (fun _ =>
  Ret (RedirectTo "device_detail" (Some device_id))).

(** *** The server as a transition system

    Every route that can change the state, plus the two read-only JSON
    routes.  (The index page and the GET form of [/devices/new] only
    read.) *)

Inductive request : Type :=
| ReqUpload (data : value)
| ReqChanges (arg : option string)
| ReqAdd (device_id : string) (data : value)
| ReqEdit (device_id : string) (data : value)
| ReqDelete (device_id : string) (data : value)
| ReqSnapshot (device_id : string)
| ReqPending (device_id : string)
| ReqNewDevice (form_id form_name : option string)
| ReqDeviceDetail (device_id : string)
| ReqDeleteDevice (device_id : string)
| ReqDeletePending (device_id : string) (idx : Z)
| ReqDeleteHistory (device_id : string) (idx : Z).

Definition handler (r : request) : prog response :=
  match r with
  | ReqUpload data => upload_medbox data
  | ReqChanges arg => get_changes arg
  | ReqAdd d data => add_command d data
  | ReqEdit d data => edit_command d data
  | ReqDelete d data => delete_command d data
  | ReqSnapshot d => get_snapshot d
  | ReqPending d => get_pending d
  | ReqNewDevice i n => new_device i n
  | ReqDeviceDetail d => device_detail d
  | ReqDeleteDevice d => delete_device d
  | ReqDeletePending d idx => delete_pending d idx
  | ReqDeleteHistory d idx => delete_history d idx
  end.

(** The state after serving the requests one after the other. *)
Definition serve (s : state) (r : request) : state := fst (run (handler r) s).

Definition serve_all (rs : list request) (s : state) : state :=
  fold_left serve rs s.


(** A pending command carries no delivery mark, a history entry does. *)
Definition is_sent (c : dict) : bool :=
  match dict_get "status" c with
  | Some (VStr st) => String.eqb st "sent"
  | _ => false
  end.

Definition unmarked (c : dict) : bool :=
  match dict_get "status" c with None => true | Some _ => false end.

(** *** Concurrent requests

    Threads of the server run one request each.  The lock makes every
    [with lock:] block atomic, and the unlocked code in between touches
    only request-local data, so an execution is an interleaving of the
    atomic steps of the threads.  A configuration holds one thread
    running [enqueue_command] and any number of threads running
    [get_changes]; a schedule names the thread that moves next. *)






(** The stages of the two kinds of thread: where a request stands
    between its critical sections.  [enq_prog] and [poll_prog] give the
    rest of the request at each stage; the first stage is the handler
    itself and each later one is what the previous leaves to run. *)

Inductive enq_stage : Type :=
| EStart                          (* about to ensure the meta record *)
| EEnsured                        (* about to append the command *)
| EDone.

Inductive poll_stage : Type :=
| PStart                          (* about to ensure the meta record *)
| PEnsured                        (* in update_last_seen_changes, about to ensure *)
| PEnsuredAgain                   (* about to set last_seen_changes *)
| PTouched                        (* about to drain the queue *)
| PDone (cmds : list dict).       (* answered with cmds *)

Definition enq_prog (device_id : value) (cmd : dict) (st : enq_stage) : prog unit :=
  match st with
  | EStart => enqueue_command device_id cmd
  | EEnsured => WithLock (append_section device_id cmd) Ret
  | EDone => Ret tt
  end.

Definition reply_commands (cmds : list dict) : prog response :=
  Ret (Json 200 (VDict [("commands", VList (map VDict cmds))])).

Definition poll_prog (d : string) (st : poll_stage) : prog response :=
  match st with
  | PStart => get_changes (Some d)
  | PEnsured =>
      update_last_seen_changes (VStr d) ;;;
      WithLock (drain_section (KStr d)) reply_commands
  | PEnsuredAgain =>
      WithLock (touch_section "last_seen_changes" (VStr d)) Ret ;;;
      WithLock (drain_section (KStr d)) reply_commands
  | PTouched => WithLock (drain_section (KStr d)) reply_commands
  | PDone cmds => reply_commands cmds
  end.




(** *** Closed forms used in the statements

    The state after one clock reading, the string that reading returns,
    and the states [ensure_device_meta] and the second block of a touch
    leave behind. *)

Definition tick (s : state) : state := fst (now_iso s).

Definition reading (s : state) : string := isoformat (clock (clock_reads s)).

Definition ensured (device_id : value) (k : pykey) (s : state) : state :=
  match devices_meta s !! k with
  | Some _ => s
  | None => with_meta (<[k := new_meta device_id (reading s)]> (devices_meta s)) (tick s)
  end.

Definition touched (field : string) (k : pykey) (s : state) : state :=
  with_meta (alter (dict_set field (VStr (reading s))) k (devices_meta s)) (tick s).

(** The states the second block of [enqueue_command] and the critical
    section of [get_changes] leave behind. *)
Definition appended (k : pykey) (cmd : dict) (s : state) : state :=
  with_pending (<[k := pending_of k s ++ [cmd]]> (devices_commands_pending s)) s.

Definition drained (k : pykey) (s : state) : state :=
  with_history
    (<[k := history_of k s ++ map (sent_entry (reading s)) (pending_of k s)]>
       (devices_commands_history s))
    (with_pending (<[k := []]> (devices_commands_pending s)) (tick s)).

(** A run of [enqueue_command] calls for one device, one after the other. *)
Definition enqueue_all (device_id : value) (cmds : list dict) (s : state) : state :=
  fold_left (fun s0 cmd => fst (run (enqueue_command device_id cmd) s0)) cmds s.

(** [p] relates every state to the state it leaves behind. *)
Definition respects {X : Type} (R : state -> state -> Prop) (p : prog X) : Prop :=
  forall s, R s (fst (run p s)).

(** Pending commands are unmarked and history entries are marked sent. *)
Definition queue_invariant (s : state) : Prop :=
  forall k,
    Forall (fun c => unmarked c = true) (pending_of k s) /\
    Forall (fun c => is_sent c = true) (history_of k s).

(** No history list has gained an entry. *)
Definition history_shrinks (s s' : state) : Prop :=
  forall k, sublist (history_of k s') (history_of k s).

(** Both queues dictionaries are untouched. *)
Definition same_queues (s s' : state) : Prop :=
  devices_commands_pending s' = devices_commands_pending s /\
  devices_commands_history s' = devices_commands_history s.

(** What every request other than a poll guarantees. *)
Definition keeps_queues (s s' : state) : Prop :=
  (queue_invariant s -> queue_invariant s') /\ history_shrinks s s'.

(** *** Effects of whole requests

    The states the remaining critical sections leave behind, and the
    list of effects a served request can have on the state; the flag
    tells whether the request deleted a device. *)

Definition stored (k : pykey) (snapshot : dict) (s : state) : state :=
  with_meds (<[k := snapshot]> (devices_meds s)) s.

Definition renamed (k : pykey) (name : string) (s : state) : state :=
  with_meta (alter (dict_set "friendly_name" (VStr name)) k (devices_meta s)) s.

Definition device_removed (d : string) (s : state) : state :=
  fst (delete_device_section d s).

Definition pending_removed (d : string) (idx : Z) (s : state) : state :=
  with_pending (<[KStr d := del_at idx (pending_of (KStr d) s)]>
                  (devices_commands_pending s)) s.

Definition history_removed (d : string) (idx : Z) (s : state) : state :=
  with_history (<[KStr d := del_at idx (history_of (KStr d) s)]>
                  (devices_commands_history s)) s.

Inductive effect (s : state) : bool -> state -> Prop :=
| eff_none : effect s false s
| eff_tick : effect s false (tick s)
| eff_upload (device_id : value) (k : pykey) (snapshot : dict) :
    to_key device_id = Some k ->
    effect s false
      (stored k snapshot
         (touched "last_seen_upload" k (ensured device_id k (tick s))))
| eff_enqueue (d : string) (cmd : dict) :
    effect s false (appended (KStr d) cmd (ensured (VStr d) (KStr d) s))
| eff_poll (d : string) :
    effect s false
      (drained (KStr d)
         (touched "last_seen_changes" (KStr d) (ensured (VStr d) (KStr d) s)))
| eff_register (d : string) :
    effect s false (ensured (VStr d) (KStr d) s)
| eff_rename (d name : string) :
    effect s false (renamed (KStr d) name (ensured (VStr d) (KStr d) s))
| eff_delete_device (d : string) :
    effect s true (device_removed d s)
| eff_delete_pending (d : string) (idx : Z) :
    0 <= idx < Z.of_nat (length (pending_of (KStr d) s)) ->
    effect s false (pending_removed d idx s)
| eff_delete_history (d : string) (idx : Z) :
    0 <= idx < Z.of_nat (length (history_of (KStr d) s)) ->
    effect s false (history_removed d idx s).

(** Every device with a snapshot, a pending list or a history list has a
    meta record. *)
Definition no_orphans (s : state) : Prop :=
  forall k,
    is_Some (devices_meds s !! k) \/ is_Some (devices_commands_pending s !! k)
      \/ is_Some (devices_commands_history s !! k) ->
    is_Some (devices_meta s !! k).

(** Every meta record of [s] is still there in [s'], with the same
    [deviceId] and [created_at]. *)
Definition registration_kept (s s' : state) : Prop :=
  forall k rec,
    devices_meta s !! k = Some rec ->
    exists rec',
      devices_meta s' !! k = Some rec' /\
      dict_get "deviceId" rec' = dict_get "deviceId" rec /\
      dict_get "created_at" rec' = dict_get "created_at" rec.

(** Every meta record names a value that hashes to its own key and was
    created at a clock reading already made. *)
Definition records_well_formed (s : state) : Prop :=
  forall k rec,
    devices_meta s !! k = Some rec ->
    exists v n,
      dict_get "deviceId" rec = Some v /\
      to_key v = Some k /\
      (n < clock_reads s)%nat /\
      dict_get "created_at" rec = Some (VStr (isoformat (clock n))).

(** Whether a request deletes a device. *)
Definition deletes_device (r : request) : bool :=
  match r with ReqDeleteDevice _ => true | _ => false end.

(** *** Any number of threads of one kind

    A pool of threads running programs with the same result type; the
    schedule names, by position, the thread that takes the next atomic
    step. *)




(** ** Basic facts *)

Lemma dict_get_set_eq (k : string) (v : value) (d : dict) :
  dict_get k (dict_set k v d) = Some v.
Proof.
  induction d as [|[k' v'] d IH]; simpl.
  - by rewrite String.eqb_refl.
  - destruct (String.eqb k k') eqn:E; simpl; rewrite E; done.
Qed.

Lemma dict_get_set_ne (k k' : string) (v : value) (d : dict) :
  k ≠ k' -> dict_get k' (dict_set k v d) = dict_get k' d.
Proof.
  intros Hne. induction d as [|[k0 v0] d IH]; simpl.
  - destruct (String.eqb k' k) eqn:E; [|done].
    apply String.eqb_eq in E. congruence.
  - destruct (String.eqb k k0) eqn:E; simpl.
    + apply String.eqb_eq in E. subst k0.
      destruct (String.eqb k' k) eqn:E'; [|done].
      apply String.eqb_eq in E'. congruence.
    + by rewrite IH.
Qed.


Lemma run_bind {R S : Type} (p : prog R) (f : R -> prog S) (s : state) :
  run (bind p f) s =
  match run p s with
  | (s', Some r) => run (f r) s'
  | (s', None) => (s', None)
  end.
Proof.
  revert s. induction p as [r| |X body k IH|k IH]; intros s; simpl.
  - by destruct (run (f r) s).
  - done.
  - destruct (body s) as [s' [x|]]; [apply IH|done].
  - apply IH.
Qed.

Lemma lock_count_bind {R S : Type} (p : prog R) (f : R -> prog S) (s : state) :
  lock_count (bind p f) s =
  match run p s with
  | (s', Some r) => (lock_count p s + lock_count (f r) s')%nat
  | (_, None) => lock_count p s
  end.
Proof.
  revert s. induction p as [r| |X body k IH|k IH]; intros s; simpl.
  - done.
  - done.
  - destruct (body s) as [s' [x|]]; [|done].
    rewrite IH. by destruct (run (k x) s') as [s'' [r|]].
  - apply IH.
Qed.

Lemma run_now_iso {R : Type} (k : string -> prog R) (s : state) :
  run (NowIso k) s = run (k (reading s)) (tick s).
Proof. reflexivity. Qed.

Lemma ensure_run (device_id : value) (k : pykey) (s : state) :
  to_key device_id = Some k ->
  run (ensure_device_meta device_id) s = (ensured device_id k s, Some tt).
Proof.
  intros Hk. unfold ensure_device_meta, ensured. simpl. rewrite Hk.
  by destruct (devices_meta s !! k).
Qed.

Lemma ensured_has_meta (device_id : value) (k : pykey) (s : state) :
  is_Some (devices_meta (ensured device_id k s) !! k).
Proof.
  unfold ensured. destruct (devices_meta s !! k) eqn:E.
  - rewrite E. eauto.
  - simpl. rewrite lookup_insert_eq. eauto.
Qed.

Lemma ensured_frame (device_id : value) (k : pykey) (s : state) :
  devices_meds (ensured device_id k s) = devices_meds s /\
  devices_commands_pending (ensured device_id k s) = devices_commands_pending s /\
  devices_commands_history (ensured device_id k s) = devices_commands_history s /\
  (clock_reads s <= clock_reads (ensured device_id k s))%nat.
Proof.
  unfold ensured. destruct (devices_meta s !! k); simpl; repeat split; lia.
Qed.

Lemma ensured_idem (device_id : value) (k : pykey) (s : state) :
  ensured device_id k (ensured device_id k s) = ensured device_id k s.
Proof.
  destruct (ensured_has_meta device_id k s) as [rec Hrec].
  unfold ensured at 1. by rewrite Hrec.
Qed.

Lemma touch_section_ok (field : string) (device_id : value) (k : pykey) (s : state) :
  to_key device_id = Some k ->
  is_Some (devices_meta s !! k) ->
  touch_section field device_id s = (touched field k s, Some tt).
Proof.
  intros Hk [rec Hrec]. unfold touch_section, touched. simpl. rewrite Hk, Hrec.
  f_equal. unfold with_meta, tick. simpl. f_equal.
  apply map_eq. intros k'. rewrite lookup_alter, lookup_insert.
  destruct (decide (k = k')) as [->|]; [by rewrite Hrec|done].
Qed.

Lemma touch_upload_run (device_id : value) (k : pykey) (s : state) :
  to_key device_id = Some k ->
  run (update_last_seen_upload device_id) s =
  (touched "last_seen_upload" k (ensured device_id k s), Some tt).
Proof.
  intros Hk. unfold update_last_seen_upload.
  rewrite run_bind, (ensure_run _ k) by done. simpl.
  rewrite (touch_section_ok _ _ k); auto using ensured_has_meta.
Qed.

Lemma touch_changes_run (device_id : value) (k : pykey) (s : state) :
  to_key device_id = Some k ->
  run (update_last_seen_changes device_id) s =
  (touched "last_seen_changes" k (ensured device_id k s), Some tt).
Proof.
  intros Hk. unfold update_last_seen_changes.
  rewrite run_bind, (ensure_run _ k) by done. simpl.
  rewrite (touch_section_ok _ _ k); auto using ensured_has_meta.
Qed.


Lemma touched_frame (field : string) (k : pykey) (s : state) :
  devices_meds (touched field k s) = devices_meds s /\
  devices_commands_pending (touched field k s) = devices_commands_pending s /\
  devices_commands_history (touched field k s) = devices_commands_history s /\
  clock_reads (touched field k s) = S (clock_reads s) /\
  (forall k', k' ≠ k -> devices_meta (touched field k s) !! k' = devices_meta s !! k').
Proof.
  repeat split; try done.
  intros k' Hne. unfold touched. simpl. by rewrite lookup_alter_ne.
Qed.



(** ** The device registry (C7) *)


(** ** Snapshot store (C3, C4, C10) *)

Lemma py_get_absent (k : string) (d : dict) :
  dict_mem k d = false -> py_get k d = VNone.
Proof. unfold dict_mem, py_get. by destruct (dict_get k d). Qed.

Lemma truthy_get_nonempty (k : string) (d : dict) :
  truthy (py_get k d) = true -> truthy (VDict d) = true.
Proof. by destruct d. Qed.

Lemma upload_accepted (dd : dict) (k : pykey) (s : state) :
  truthy (py_get "deviceId" dd) = true ->
  is_none (py_get "meds" dd) = false ->
  is_none (py_get "count" dd) = false ->
  to_key (py_get "deviceId" dd) = Some k ->
  let t := reading s in
  let snapshot := [("timestamp", VStr t); ("count", py_get "count" dd);
                   ("meds", py_get "meds" dd)] in
  let s2 := touched "last_seen_upload" k (ensured (py_get "deviceId" dd) k (tick s)) in
  run (upload_medbox (VDict dd)) s =
  (with_meds (<[k := snapshot]> (devices_meds s2)) s2,
   Some (Json 200 (VDict [("status", VStr "ok");
                          ("deviceId", py_get "deviceId" dd);
                          ("receivedCount", py_get "count" dd);
                          ("storedAt", VStr t)]))).
Proof.
  intros Hid Hmeds Hcount Hk t snapshot s2. unfold upload_medbox.
  rewrite (truthy_get_nonempty _ _ Hid), Hid, Hmeds, Hcount.
  cbn [negb orb]. rewrite run_now_iso.
  rewrite run_bind, (ensure_run _ k) by done.
  rewrite run_bind, (touch_upload_run _ k) by done.
  rewrite ensured_idem. cbn [run]. unfold store_snapshot_section. by rewrite Hk.
Qed.

Lemma upload_rejected (dd : dict) :
  negb (truthy (py_get "deviceId" dd)) || is_none (py_get "meds" dd)
    || is_none (py_get "count" dd) = true ->
  exists msg, upload_medbox (VDict dd) = Ret (Json 400 (error_body msg)).
Proof.
  intros Hbad. unfold upload_medbox.
  destruct (negb (truthy (VDict dd))); [by eexists|].
  rewrite Hbad. by eexists.
Qed.

(** C4.  An upload whose JSON object lacks [deviceId], [meds] or
    [count] is answered with HTTP 400; the handler returns before it
    takes the lock or reads the clock, so the whole state, the snapshot
    store and the device registry included, is what it was. *)
Theorem upload_missing_field_rejected (dd : dict) (s : state) :
  dict_mem "deviceId" dd = false \/ dict_mem "meds" dd = false
    \/ dict_mem "count" dd = false ->
  exists msg,
    upload_medbox (VDict dd) = Ret (Json 400 (error_body msg)) /\
    run (upload_medbox (VDict dd)) s = (s, Some (Json 400 (error_body msg))) /\
    lock_count (upload_medbox (VDict dd)) s = 0%nat /\
    devices_meds (fst (run (upload_medbox (VDict dd)) s)) = devices_meds s /\
    devices_meta (fst (run (upload_medbox (VDict dd)) s)) = devices_meta s.
Proof.
  intros Hmiss.
  destruct (upload_rejected dd) as [msg Hmsg].
  - destruct Hmiss as [Hm|[Hm|Hm]]; rewrite (py_get_absent _ _ Hm); simpl;
      rewrite ?orb_true_r; done.
  - exists msg. by rewrite Hmsg.
Qed.

(** C10.  [deviceId] is tested for falsiness, [meds] and [count] only
    for being [None]: an upload whose [deviceId] is the empty string is
    rejected with 400 "missing fields", while one with a non-empty
    [deviceId], [count] 0 and an empty [meds] list is accepted with 200
    and stored as it is. *)
Theorem upload_falsy_fields (dd : dict) (s : state) :
  (py_get "deviceId" dd = VStr "" ->
   upload_medbox (VDict dd) = Ret (Json 400 (error_body "missing fields"))) /\
  (forall d, d ≠ "" ->
     py_get "deviceId" dd = VStr d ->
     py_get "count" dd = VInt 0 ->
     py_get "meds" dd = VList [] ->
     exists s' body,
       run (upload_medbox (VDict dd)) s = (s', Some (Json 200 body)) /\
       devices_meds s' !! KStr d =
         Some [("timestamp", VStr (reading s)); ("count", VInt 0); ("meds", VList [])]).
Proof.
  split.
  - intros Hid. unfold upload_medbox.
    assert (truthy (VDict dd) = true) as ->.
    { destruct dd; [discriminate Hid|done]. }
    by rewrite Hid.
  - intros d Hd Hid Hcount Hmeds.
    pose proof (upload_accepted dd (KStr d) s) as Hrun.
    rewrite Hid, Hcount, Hmeds in Hrun. simpl in Hrun.
    eexists _, _. split.
    + apply Hrun; try done.
      destruct (String.eqb d "") eqn:E; [|done].
      apply String.eqb_eq in E. done.
    + simpl. by rewrite lookup_insert_eq.
Qed.

(** C3.  After an upload that was answered with 200 and whose
    [deviceId] is the string [d], the snapshot route for [d] returns the
    uploaded [count] and [meds] together with a timestamp read from the
    clock during that upload.  The store holds that one dict for [d]:
    whatever was stored for [d] before is replaced, not kept. *)
Theorem upload_then_snapshot
    (dd : dict) (d : string) (s s' : state) (body : value) :
  py_get "deviceId" dd = VStr d ->
  run (upload_medbox (VDict dd)) s = (s', Some (Json 200 body)) ->
  let snapshot := [("timestamp", VStr (isoformat (clock (clock_reads s))));
                   ("count", py_get "count" dd); ("meds", py_get "meds" dd)] in
  run (get_snapshot d) s' = (s', Some (Json 200 (VDict snapshot))) /\
  devices_meds s' = <[KStr d := snapshot]> (devices_meds s) /\
  (clock_reads s < clock_reads s')%nat.
Proof.
  intros Hid Hrun snapshot.
  destruct (negb (truthy (py_get "deviceId" dd)) || is_none (py_get "meds" dd)
            || is_none (py_get "count" dd)) eqn:Hbad.
  { destruct (upload_rejected dd Hbad) as [msg Hmsg].
    rewrite Hmsg in Hrun. simpl in Hrun. congruence. }
  apply orb_false_elim in Hbad as [Hbad Hcount].
  apply orb_false_elim in Hbad as [Htruthy Hmeds].
  apply negb_false_iff in Htruthy.
  assert (to_key (py_get "deviceId" dd) = Some (KStr d)) as Hk by (by rewrite Hid).
  pose proof (upload_accepted dd (KStr d) s Htruthy Hmeds Hcount Hk) as Hacc.
  cbv zeta in Hacc. rewrite Hacc in Hrun.
  injection Hrun as Hs' _. subst s'.
  split; [|split].
  - simpl. by rewrite lookup_insert_eq.
  - simpl. by rewrite (proj1 (ensured_frame _ _ _)).
  - simpl. destruct (ensured_frame (VStr d) (KStr d) (tick s)) as (_ & _ & _ & Hle).
    rewrite Hid. simpl in Hle. lia.
Qed.

(** ** Deleting one pending command (C6) *)

Lemma delete_pending_run (d : string) (idx : Z) (s : state) :
  run (delete_pending d idx) s =
  (fst (delete_pending_section d idx s), Some (RedirectTo "device_detail" (Some d))).
Proof.
  unfold delete_pending, delete_pending_section. simpl.
  by destruct ((0 <=? idx) && (idx <? Z.of_nat (length (pending_of (KStr d) s)))).
Qed.

(** C6.  With [lst] the pending list of device [d] (empty when [d] has
    none): for an index in range, the pending list becomes [lst] without
    its element at that index, the elements before it keep their
    positions, those after it move up by one, and nothing else in the
    state changes; for any other index the state is unchanged. *)
Theorem delete_pending_removes_one (d : string) (idx : Z) (s : state) :
  let lst := pending_of (KStr d) s in
  let s' := fst (run (delete_pending d idx) s) in
  (0 <= idx < Z.of_nat (length lst) ->
     pending_of (KStr d) s' =
       take (Z.to_nat idx) lst ++ drop (S (Z.to_nat idx)) lst /\
     S (length (pending_of (KStr d) s')) = length lst /\
     (forall j : nat, (j < Z.to_nat idx)%nat ->
        pending_of (KStr d) s' !! j = lst !! j) /\
     (forall j : nat, (Z.to_nat idx <= j)%nat ->
        pending_of (KStr d) s' !! j = lst !! S j) /\
     (forall k, k ≠ KStr d ->
        devices_commands_pending s' !! k = devices_commands_pending s !! k) /\
     devices_commands_history s' = devices_commands_history s /\
     devices_meds s' = devices_meds s /\
     devices_meta s' = devices_meta s /\
     clock_reads s' = clock_reads s) /\
  (~ (0 <= idx < Z.of_nat (length lst)) -> s' = s).
Proof.
  intros lst s'. subst s'. rewrite delete_pending_run. simpl.
  unfold delete_pending_section. fold lst.
  split.
  - intros [Hlo Hhi].
    assert ((0 <=? idx) && (idx <? Z.of_nat (length lst)) = true) as ->.
    { apply andb_true_iff. split; [by apply Z.leb_le|by apply Z.ltb_lt]. }
    simpl. unfold pending_of at 1 2 3 4. simpl. rewrite lookup_insert_eq. simpl.
    unfold del_at.
    split; [apply delete_take_drop|].
    split; [rewrite length_delete; [lia|]; apply lookup_lt_is_Some; lia|].
    split; [intros j Hj; by apply list_lookup_delete_lt|].
    split; [intros j Hj; by apply list_lookup_delete_ge|].
    split; [intros k Hk; by rewrite lookup_insert_ne|].
    done.
  - intros Hout.
    assert ((0 <=? idx) && (idx <? Z.of_nat (length lst)) = false) as ->; [|done].
    apply andb_false_iff.
    destruct (Z.leb_spec 0 idx); [|by left].
    right. apply Z.ltb_ge. lia.
Qed.

(** ** Deleting a device (C5) *)

(** C5.  [delete_device] is a single critical section: its first and
    only atomic step pops [d] from all four dictionaries and leaves the
    finished request, so no other request can see [d] in some of them and
    not in others; afterwards the snapshot route for [d] answers 404. *)
Theorem delete_device_all_stores (d : string) (s : state) :
  exists s',
    step (delete_device d) s = Some (s', Ret (RedirectTo "index" None)) /\
    lock_count (delete_device d) s = 1%nat /\
    run (delete_device d) s = (s', Some (RedirectTo "index" None)) /\
    devices_meta s' !! KStr d = None /\
    devices_meds s' !! KStr d = None /\
    devices_commands_pending s' !! KStr d = None /\
    devices_commands_history s' !! KStr d = None /\
    (forall k, k ≠ KStr d ->
       devices_meta s' !! k = devices_meta s !! k /\
       devices_meds s' !! k = devices_meds s !! k /\
       devices_commands_pending s' !! k = devices_commands_pending s !! k /\
       devices_commands_history s' !! k = devices_commands_history s !! k) /\
    run (get_snapshot d) s' = (s', Some (Aborted 404)).
Proof.
  eexists. split; [reflexivity|].
  split; [reflexivity|]. split; [reflexivity|]. simpl.
  rewrite !lookup_delete_eq. repeat (split; [done|]).
  split; [|done].
  intros k Hk. by rewrite !lookup_delete_ne.
Qed.

(** ** Command queue: enqueue and poll (C1) *)

Lemma append_section_ok (device_id : value) (k : pykey) (cmd : dict) (s : state) :
  to_key device_id = Some k ->
  append_section device_id cmd s = (appended k cmd s, Some tt).
Proof.
  intros Hk. unfold append_section, appended, pending_of. rewrite Hk.
  f_equal. f_equal. apply map_eq. intros k'.
  destruct (devices_commands_pending s !! k) as [lst|] eqn:E; simpl.
  - rewrite lookup_alter, lookup_insert.
    destruct (decide (k = k')) as [<-|]; [by rewrite E|done].
  - rewrite lookup_alter, !lookup_insert.
    destruct (decide (k = k')) as [<-|]; [|done].
    by rewrite decide_True.
Qed.

Lemma enqueue_run (device_id : value) (k : pykey) (cmd : dict) (s : state) :
  to_key device_id = Some k ->
  run (enqueue_command device_id cmd) s =
  (appended k cmd (ensured device_id k s), Some tt).
Proof.
  intros Hk. unfold enqueue_command.
  rewrite run_bind, (ensure_run _ k) by done. cbn [run].
  by rewrite (append_section_ok _ k).
Qed.

Lemma pending_of_ensured (id : value) (k k' : pykey) (s : state) :
  pending_of k' (ensured id k s) = pending_of k' s.
Proof. unfold pending_of. by rewrite (proj1 (proj2 (ensured_frame _ _ _))). Qed.

Lemma history_of_ensured (id : value) (k k' : pykey) (s : state) :
  history_of k' (ensured id k s) = history_of k' s.
Proof.
  unfold history_of. by rewrite (proj1 (proj2 (proj2 (ensured_frame _ _ _)))).
Qed.

Lemma enqueue_all_effect (device_id : value) (k : pykey) (cmds : list dict) (s : state) :
  to_key device_id = Some k ->
  pending_of k (enqueue_all device_id cmds s) = pending_of k s ++ cmds /\
  devices_commands_history (enqueue_all device_id cmds s) = devices_commands_history s /\
  (clock_reads s <= clock_reads (enqueue_all device_id cmds s))%nat.
Proof.
  intros Hk. revert s. induction cmds as [|c cmds IH]; intros s.
  - simpl. by rewrite app_nil_r.
  - change (enqueue_all device_id (c :: cmds) s)
      with (enqueue_all device_id cmds (fst (run (enqueue_command device_id c) s))).
    rewrite (enqueue_run _ k) by done. cbn [fst].
    destruct (IH (appended k c (ensured device_id k s))) as (Hp & Hh & Hc).
    rewrite Hp, Hh.
    destruct (ensured_frame device_id k s) as (_ & _ & Hh' & Hc').
    split; [|split].
    + unfold appended, pending_of at 1. simpl. rewrite lookup_insert_eq. simpl.
      by rewrite pending_of_ensured, <- app_assoc.
    + done.
    + simpl in Hc. lia.
Qed.

Lemma drain_loop (k : pykey) (f : dict -> dict) (cmds : list dict)
    (h : gmap pykey (list dict)) :
  fold_left (fun h0 c => alter (fun lst => lst ++ [f c]) k h0) cmds h =
  alter (fun lst => lst ++ map f cmds) k h.
Proof.
  revert h. induction cmds as [|c cmds IH]; intros h; simpl.
  - apply map_eq. intros k'. rewrite lookup_alter.
    destruct (decide (k = k')) as [<-|]; [|done].
    destruct (h !! k); simpl; [by rewrite app_nil_r|done].
  - rewrite IH. apply map_eq. intros k'.
    destruct (decide (k = k')) as [<-|]; [|by rewrite !lookup_alter_ne].
    rewrite !lookup_alter_eq.
    destruct (h !! k); simpl; [|done]. by rewrite <- app_assoc.
Qed.

Lemma drain_section_ok (k : pykey) (s : state) :
  drain_section k s = (drained k s, Some (pending_of k s)).
Proof.
  unfold drain_section, drained. simpl. rewrite drain_loop.
  f_equal. unfold with_history, with_pending, tick. simpl. f_equal.
  apply map_eq. intros k'. unfold history_of. rewrite lookup_alter, lookup_insert.
  destruct (decide (k = k')) as [<-|].
  - destruct (devices_commands_history s !! k) as [l|] eqn:E; simpl.
    + by rewrite E.
    + by rewrite lookup_insert_eq.
  - by destruct (devices_commands_history s !! k); [|rewrite lookup_insert_ne].
Qed.

Lemma get_changes_run (d : string) (s : state) :
  d ≠ "" ->
  run (get_changes (Some d)) s =
  (drained (KStr d) (touched "last_seen_changes" (KStr d) (ensured (VStr d) (KStr d) s)),
   Some (Json 200 (VDict [("commands", VList (map VDict (pending_of (KStr d) s)))]))).
Proof.
  intros Hd. unfold get_changes.
  destruct (String.eqb d "") eqn:E; [apply String.eqb_eq in E; done|].
  rewrite run_bind, (ensure_run _ (KStr d)) by done.
  rewrite run_bind, (touch_changes_run _ (KStr d)) by done.
  rewrite ensured_idem. cbn [run]. rewrite drain_section_ok.
  do 5 f_equal. unfold pending_of.
  rewrite (proj1 (proj2 (touched_frame _ _ _))).
  by rewrite (proj1 (proj2 (ensured_frame _ _ _))).
Qed.

Lemma sent_entry_marks (t : string) (c : dict) :
  dict_get "status" (sent_entry t c) = Some (VStr "sent") /\
  dict_get "sent_at" (sent_entry t c) = Some (VStr t) /\
  (forall f, f ≠ "status" -> f ≠ "sent_at" -> dict_get f (sent_entry t c) = dict_get f c).
Proof.
  unfold sent_entry. split; [|split].
  - by rewrite dict_get_set_ne, dict_get_set_eq.
  - apply dict_get_set_eq.
  - intros f H1 H2. by rewrite !dict_get_set_ne.
Qed.

(** C1.  Enqueue the commands [cmds] for device [d], one after the
    other, and then poll once.  The poll answers 200 with the commands
    that were already pending (none when the queue was empty) followed by
    [cmds], in the order they were enqueued; afterwards the pending list
    of [d] is empty and its history is the old history followed by one
    entry per returned command, in the same order, each with status
    "sent" and a [sent_at] that is a clock reading made during the poll:
    with a clock that never runs backwards it is not earlier than any
    reading made up to the start of the poll. *)
Theorem poll_returns_fifo (d : string) (cmds : list dict) (s : state) :
  d ≠ "" ->
  (forall m n : nat, (m <= n)%nat -> dt_le (clock m) (clock n)) ->
  let k := KStr d in
  let s1 := enqueue_all (VStr d) cmds s in
  let queue := pending_of k s ++ cmds in
  exists s2 n,
    run (get_changes (Some d)) s1 =
      (s2, Some (Json 200 (VDict [("commands", VList (map VDict queue))]))) /\
    devices_commands_pending s2 !! k = Some [] /\
    history_of k s2 =
      history_of k s ++ map (sent_entry (isoformat (clock n))) queue /\
    length (history_of k s2) = (length (history_of k s) + length queue)%nat /\
    (forall e, e ∈ map (sent_entry (isoformat (clock n))) queue ->
       dict_get "status" e = Some (VStr "sent") /\
       dict_get "sent_at" e = Some (VStr (isoformat (clock n)))) /\
    (clock_reads s1 <= n)%nat /\
    (forall m, (m <= clock_reads s1)%nat -> dt_le (clock m) (clock n)).
Proof.
  intros Hd Hmono k s1 queue.
  destruct (enqueue_all_effect (VStr d) k cmds s eq_refl) as (Hp & Hh & _).
  fold s1 in Hp, Hh.
  set (sa := ensured (VStr d) k s1).
  set (sb := touched "last_seen_changes" k sa).
  destruct (ensured_frame (VStr d) k s1) as (_ & Hpa & Hha & Hca). fold sa in Hpa, Hha, Hca.
  destruct (touched_frame "last_seen_changes" k sa) as (_ & Hpb & Hhb & Hcb & _).
  fold sb in Hpb, Hhb, Hcb.
  assert (pending_of k sb = queue) as Hq.
  { unfold pending_of. rewrite Hpb, Hpa. exact Hp. }
  assert (history_of k sb = history_of k s) as Hhist.
  { unfold history_of. by rewrite Hhb, Hha, Hh. }
  assert (clock_reads s1 <= clock_reads sb)%nat as Hle by lia.
  exists (drained k sb), (clock_reads sb).
  split.
  { rewrite get_changes_run by done. fold k sa sb. by rewrite Hp. }
  split; [simpl; by rewrite lookup_insert_eq|].
  assert (history_of k (drained k sb) =
          history_of k s ++ map (sent_entry (isoformat (clock (clock_reads sb)))) queue)
    as Hnew.
  { unfold history_of at 1, drained. simpl. rewrite lookup_insert_eq. simpl.
    by rewrite Hhist, Hq. }
  split; [exact Hnew|].
  split; [by rewrite Hnew, length_app, length_map|].
  split.
  { intros e He. apply list_elem_of_fmap in He as (c & -> & _).
    destruct (sent_entry_marks (isoformat (clock (clock_reads sb))) c) as (? & ? & _).
    done. }
  split; [exact Hle|].
  intros m Hm. apply Hmono. lia.
Qed.

(** ** The add command (C8) *)

Lemma build_add_inv (data : value) (cmd : dict) :
  build_add data = Some cmd ->
  exists dd name qty hr mn led enabled,
    data = VDict dd /\
    dict_get "hour" dd ≫= py_int = Some hr /\
    dict_get "minute" dd ≫= py_int = Some mn /\
    cmd = [("op", VStr "add"); ("name", name); ("qty", VInt qty);
           ("hour", VInt hr); ("minute", VInt mn); ("led", VInt led);
           ("enabled", VBool enabled)].
Proof.
  unfold build_add. intros Hb.
  destruct data as [| | | | | |dd]; simplify_option_eq.
  eexists dd, _, _, _, _, _, _.
  split; [reflexivity|]. split; [by simplify_option_eq|].
  split; [by simplify_option_eq|reflexivity].
Qed.

Lemma add_command_accepted_inv (d : string) (data : value) (s s' : state) (body : value) :
  run (add_command d data) s = (s', Some (Json 200 body)) ->
  exists cmd,
    build_add data = Some cmd /\
    body = queued_body d cmd /\
    s' = appended (KStr d) cmd (ensured (VStr d) (KStr d) s).
Proof.
  unfold add_command. intros Hrun.
  destruct (negb (truthy data)); [simpl in Hrun; congruence|].
  destruct (any_missing _ data) as [[|]|]; try (simpl in Hrun; congruence).
  destruct (build_add data) as [cmd|]; [|simpl in Hrun; congruence].
  rewrite run_bind, (enqueue_run _ (KStr d)) in Hrun by done.
  cbn [run] in Hrun. exists cmd. split; [done|]. split; congruence.
Qed.

(** C8, as amended.  A request to the add route that is answered with
    200 carries a JSON object, and the command it queues, at the end of
    the device's pending list, has integer [hour] and [minute] fields:
    the values [int()] gives for the [hour] and [minute] supplied.  The
    handler compares them with no bound. *)
Theorem add_command_int_fields (d : string) (data : value) (s s' : state) (body : value) :
  run (add_command d data) s = (s', Some (Json 200 body)) ->
  exists dd cmd hr mn,
    data = VDict dd /\
    dict_get "hour" dd ≫= py_int = Some hr /\
    dict_get "minute" dd ≫= py_int = Some mn /\
    dict_get "hour" cmd = Some (VInt hr) /\
    dict_get "minute" cmd = Some (VInt mn) /\
    body = queued_body d cmd /\
    pending_of (KStr d) s' = pending_of (KStr d) s ++ [cmd].
Proof.
  intros Hrun.
  destruct (add_command_accepted_inv _ _ _ _ _ Hrun) as (cmd & Hb & -> & ->).
  destruct (build_add_inv _ _ Hb) as (dd & name & qty & hr & mn & led & en & -> & Hh & Hm & ->).
  eexists dd, _, hr, mn. repeat split; try done.
  unfold appended, pending_of at 1. simpl. rewrite lookup_insert_eq. simpl.
  by rewrite pending_of_ensured.
Qed.

(** ** Pending and history (C2) *)

Section Respects.
Variable R : state -> state -> Prop.
Hypothesis R_refl : forall s, R s s.
Hypothesis R_trans : forall s1 s2 s3, R s1 s2 -> R s2 s3 -> R s1 s3.

Lemma respects_ret {X : Type} (x : X) : respects R (Ret x).
Proof. intros s. apply R_refl. Qed.


Lemma respects_lock {X Y : Type} (body : state -> state * option X) (k : X -> prog Y) :
  (forall s, R s (fst (body s))) ->
  (forall x, respects R (k x)) ->
  respects R (WithLock body k).
Proof.
  intros Hbody Hk s. simpl. specialize (Hbody s).
  destruct (body s) as [s' [x|]]; simpl in *; [|done].
  eapply R_trans; [exact Hbody|apply Hk].
Qed.


Lemma respects_bind {X Y : Type} (p : prog X) (f : X -> prog Y) :
  respects R p -> (forall x, respects R (f x)) -> respects R (bind p f).
Proof.
  intros Hp Hf s. rewrite run_bind. specialize (Hp s).
  destruct (run p s) as [s' [x|]]; simpl in *; [|done].
  eapply R_trans; [exact Hp|apply Hf].
Qed.

End Respects.

Lemma keeps_queues_refl (s : state) : keeps_queues s s.
Proof. split; [done|]. intros k. done. Qed.

Lemma keeps_queues_trans (s1 s2 s3 : state) :
  keeps_queues s1 s2 -> keeps_queues s2 s3 -> keeps_queues s1 s3.
Proof.
  intros [Hi1 Hh1] [Hi2 Hh2]. split; [auto|].
  intros k. etrans; [apply Hh2|apply Hh1].
Qed.

Lemma same_queues_keeps (s s' : state) : same_queues s s' -> keeps_queues s s'.
Proof.
  intros [Hp Hh]. split.
  - intros Hinv k. unfold pending_of, history_of. rewrite Hp, Hh. apply Hinv.
  - intros k. unfold history_of. by rewrite Hh.
Qed.

Lemma pending_of_appended (k k' : pykey) (cmd : dict) (s : state) :
  pending_of k' (appended k cmd s) =
  if decide (k = k') then pending_of k s ++ [cmd] else pending_of k' s.
Proof.
  unfold appended, pending_of at 1. simpl. rewrite lookup_insert.
  by destruct (decide (k = k')).
Qed.


Lemma history_of_drained (k k' : pykey) (s : state) :
  history_of k' (drained k s) =
  if decide (k = k')
  then history_of k s ++ map (sent_entry (reading s)) (pending_of k s)
  else history_of k' s.
Proof.
  unfold drained, history_of at 1. simpl. rewrite lookup_insert.
  by destruct (decide (k = k')).
Qed.

Lemma kq_ret {X : Type} (x : X) : respects keeps_queues (Ret x).
Proof. apply respects_ret, keeps_queues_refl. Qed.


Lemma kq_lock {X Y : Type} (body : state -> state * option X) (k : X -> prog Y) :
  (forall s, keeps_queues s (fst (body s))) ->
  (forall x, respects keeps_queues (k x)) ->
  respects keeps_queues (WithLock body k).
Proof. apply respects_lock, keeps_queues_trans. Qed.

Lemma kq_bind {X Y : Type} (p : prog X) (f : X -> prog Y) :
  respects keeps_queues p -> (forall x, respects keeps_queues (f x)) ->
  respects keeps_queues (bind p f).
Proof. apply respects_bind, keeps_queues_trans. Qed.


Lemma ensure_keeps (device_id : value) :
  respects keeps_queues (ensure_device_meta device_id).
Proof.
  apply kq_lock; [|intros; apply kq_ret].
  intros s. apply same_queues_keeps.
  destruct (to_key device_id) as [k|]; [|done].
  by destruct (devices_meta s !! k).
Qed.

Lemma touch_section_keeps (field : string) (device_id : value) (s : state) :
  keeps_queues s (fst (touch_section field device_id s)).
Proof.
  apply same_queues_keeps. unfold touch_section. simpl.
  destruct (to_key device_id) as [k|]; [|done].
  by destruct (devices_meta s !! k).
Qed.


Lemma touch_changes_keeps (device_id : value) :
  respects keeps_queues (update_last_seen_changes device_id).
Proof.
  apply kq_bind; [apply ensure_keeps|].
  intros _. apply kq_lock; [apply touch_section_keeps|intros; apply kq_ret].
Qed.






























(** ** Concurrent enqueue and polls (C9) *)

Lemma enq_step (d : string) (cmd : dict) (st : enq_stage) (s : state) :
  step (enq_prog (VStr d) cmd st) s =
  match st with
  | EStart => Some (ensured (VStr d) (KStr d) s, enq_prog (VStr d) cmd EEnsured)
  | EEnsured => Some (appended (KStr d) cmd s, enq_prog (VStr d) cmd EDone)
  | EDone => None
  end.
Proof.
  destruct st.
  - simpl. unfold ensured. by destruct (devices_meta s !! KStr d).
  - unfold enq_prog, step. by rewrite (append_section_ok _ (KStr d)).
  - done.
Qed.

Lemma poll_step (d : string) (st : poll_stage) (s : state) :
  d ≠ "" ->
  (st = PEnsuredAgain -> is_Some (devices_meta s !! KStr d)) ->
  step (poll_prog d st) s =
  match st with
  | PStart => Some (ensured (VStr d) (KStr d) s, poll_prog d PEnsured)
  | PEnsured => Some (ensured (VStr d) (KStr d) s, poll_prog d PEnsuredAgain)
  | PEnsuredAgain => Some (touched "last_seen_changes" (KStr d) s, poll_prog d PTouched)
  | PTouched => Some (drained (KStr d) s, poll_prog d (PDone (pending_of (KStr d) s)))
  | PDone _ => None
  end.
Proof.
  intros Hd Hmeta. destruct st.
  - simpl. destruct (String.eqb d "") eqn:E; [apply String.eqb_eq in E; done|].
    simpl. unfold ensured. by destruct (devices_meta s !! KStr d).
  - simpl. unfold ensured. by destruct (devices_meta s !! KStr d).
  - change (step (WithLock (touch_section "last_seen_changes" (VStr d))
                    (fun x => WithLock (drain_section (KStr d)) reply_commands)) s = 
            Some (touched "last_seen_changes" (KStr d) s, poll_prog d PTouched)).
    unfold step. by rewrite (touch_section_ok _ _ (KStr d)) by auto.
  - change (step (WithLock (drain_section (KStr d)) reply_commands) s =
            Some (drained (KStr d) s, poll_prog d (PDone (pending_of (KStr d) s)))).
    unfold step. by rewrite drain_section_ok.
  - done.
Qed.


Lemma meta_kept_ensured (id : value) (k k' : pykey) (s : state) :
  is_Some (devices_meta s !! k') -> is_Some (devices_meta (ensured id k s) !! k').
Proof.
  intros Hs. unfold ensured. destruct (devices_meta s !! k) eqn:E; [done|].
  simpl. rewrite lookup_insert. by destruct (decide (k = k')).
Qed.

Lemma meta_kept_touched (field : string) (k k' : pykey) (s : state) :
  is_Some (devices_meta s !! k') -> is_Some (devices_meta (touched field k s) !! k').
Proof.
  intros [rec Hrec]. unfold touched. simpl.
  destruct (decide (k = k')) as [->|].
  - rewrite lookup_alter_eq, Hrec. eauto.
  - rewrite lookup_alter_ne, Hrec by done. eauto.
Qed.








(** ** The command routes: when they queue and what they queue *)

Lemma enqueue_reply_run (d : string) (cmd : dict) (s : state) :
  run (enqueue_command (VStr d) cmd ;;; Ret (Json 200 (queued_body d cmd))) s =
  (appended (KStr d) cmd (ensured (VStr d) (KStr d) s),
   Some (Json 200 (queued_body d cmd))).
Proof. by rewrite run_bind, (enqueue_run _ (KStr d)). Qed.

Lemma add_command_cases (d : string) (data : value) (s : state) :
  (exists cmd,
     truthy data = true /\
     any_missing ["name"; "qty"; "hour"; "minute"; "led"] data = Some false /\
     build_add data = Some cmd /\
     run (add_command d data) s =
       (appended (KStr d) cmd (ensured (VStr d) (KStr d) s),
        Some (Json 200 (queued_body d cmd)))) \/
  (exists o, run (add_command d data) s = (s, o) /\ forall b, o ≠ Some (Json 200 b)).
Proof.
  unfold add_command. destruct (truthy data) eqn:Ht; cbn [negb];
    [|right; eexists; split; [reflexivity|done]].
  destruct (any_missing _ data) as [[|]|] eqn:Hm;
    try (right; eexists; split; [reflexivity|done]).
  destruct (build_add data) as [cmd|] eqn:Hb;
    [|right; eexists; split; [reflexivity|done]].
  left. exists cmd. repeat split; try done. apply enqueue_reply_run.
Qed.

Lemma edit_command_cases (d : string) (data : value) (s : state) :
  (exists cmd,
     truthy data = true /\
     py_contains "id" data = Some true /\
     build_edit data = Some cmd /\
     run (edit_command d data) s =
       (appended (KStr d) cmd (ensured (VStr d) (KStr d) s),
        Some (Json 200 (queued_body d cmd)))) \/
  (exists o, run (edit_command d data) s = (s, o) /\ forall b, o ≠ Some (Json 200 b)).
Proof.
  unfold edit_command. destruct (truthy data) eqn:Ht; cbn [negb];
    [|right; eexists; split; [reflexivity|done]].
  destruct (py_contains "id" data) as [[|]|] eqn:Hm;
    try (right; eexists; split; [reflexivity|done]).
  destruct (build_edit data) as [cmd|] eqn:Hb;
    [|right; eexists; split; [reflexivity|done]].
  left. exists cmd. repeat split; try done. apply enqueue_reply_run.
Qed.

Lemma delete_command_cases (d : string) (data : value) (s : state) :
  (exists cmd,
     truthy data = true /\
     py_contains "id" data = Some true /\
     build_delete data = Some cmd /\
     run (delete_command d data) s =
       (appended (KStr d) cmd (ensured (VStr d) (KStr d) s),
        Some (Json 200 (queued_body d cmd)))) \/
  (exists o, run (delete_command d data) s = (s, o) /\ forall b, o ≠ Some (Json 200 b)).
Proof.
  unfold delete_command. destruct (truthy data) eqn:Ht; cbn [negb];
    [|right; eexists; split; [reflexivity|done]].
  destruct (py_contains "id" data) as [[|]|] eqn:Hm;
    try (right; eexists; split; [reflexivity|done]).
  destruct (build_delete data) as [cmd|] eqn:Hb;
    [|right; eexists; split; [reflexivity|done]].
  left. exists cmd. repeat split; try done. apply enqueue_reply_run.
Qed.

Lemma pending_after_enqueue (d : string) (cmd : dict) (s : state) :
  pending_of (KStr d) (appended (KStr d) cmd (ensured (VStr d) (KStr d) s)) =
  pending_of (KStr d) s ++ [cmd].
Proof. by rewrite pending_of_appended, decide_True, pending_of_ensured. Qed.

(** What the copying loop of [edit_command] leaves under a key. *)
Lemma copy_fields_get (fields : list string) (data cmd : dict) (f : string) :
  dict_get f (copy_fields fields data cmd) =
  if decide (f ∈ fields)
  then match dict_get f data with Some v => Some v | None => dict_get f cmd end
  else dict_get f cmd.
Proof.
  revert cmd. induction fields as [|g fields IH]; intros cmd.
  - by rewrite decide_False by apply not_elem_of_nil.
  - change (copy_fields (g :: fields) data cmd)
      with (copy_fields fields data
              (match dict_get g data with Some v => dict_set g v cmd | None => cmd end)).
    rewrite IH.
    destruct (decide (f = g)) as [->|Hfg].
    + rewrite (decide_True (P := g ∈ g :: fields)) by apply list_elem_of_here.
      destruct (dict_get g data) as [v|] eqn:Hg.
      * rewrite dict_get_set_eq. by destruct (decide (g ∈ fields)).
      * by destruct (decide (g ∈ fields)).
    + assert (dict_get f (match dict_get g data with
                          | Some v => dict_set g v cmd | None => cmd end) =
              dict_get f cmd) as ->.
      { destruct (dict_get g data); [by apply dict_get_set_ne|done]. }
      destruct (decide (f ∈ fields)) as [Hin|Hnin].
      * by rewrite decide_True by (by apply list_elem_of_further).
      * rewrite decide_False; [done|].
        intros Hin. apply elem_of_cons in Hin as [?|?]; done.
Qed.


Lemma build_edit_inv (data : value) (cmd : dict) :
  build_edit data = Some cmd ->
  exists dd i,
    data = VDict dd /\
    dict_get "id" dd ≫= py_int = Some i /\
    cmd = copy_fields ["name"; "qty"; "hour"; "minute"; "led"; "enabled"] dd
            [("op", VStr "edit"); ("id", VInt i)].
Proof.
  unfold build_edit. intros Hb.
  destruct (py_getitem "id" data ≫= py_int) as [i|] eqn:Hi; [|done].
  cbn [mbind option_bind] in Hb.
  destruct data as [| | | | | |dd]; try done.
  apply (inj Some) in Hb. exists dd, i. by rewrite <- Hb.
Qed.

Lemma build_delete_inv (data : value) (cmd : dict) :
  build_delete data = Some cmd ->
  exists dd i,
    data = VDict dd /\
    dict_get "id" dd ≫= py_int = Some i /\
    cmd = [("op", VStr "delete"); ("id", VInt i)].
Proof.
  unfold build_delete. intros Hb.
  destruct (py_getitem "id" data ≫= py_int) as [i|] eqn:Hi; [|done].
  cbn [mbind option_bind] in Hb. apply (inj Some) in Hb.
  destruct data as [| | | | | |dd]; try done. by exists dd, i.
Qed.

Lemma optional_fields_not_op_id (f : string) :
  f ∈ ["name"; "qty"; "hour"; "minute"; "led"; "enabled"] -> f ≠ "op" /\ f ≠ "id".
Proof.
  intros Hf. repeat (apply elem_of_cons in Hf as [->|Hf]; [done|]).
  by apply not_elem_of_nil in Hf.
Qed.

(** X1.  An edit request answered with 200 carries a JSON object whose
    [id] converts with [int()].  The queued command, appended to the
    device's pending list, has op "edit", that integer id, and under each
    of name, qty, hour, minute, led and enabled exactly what the request
    has under it (nothing when the request has nothing), with no
    conversion; every other key of the request is dropped. *)
Theorem edit_command_passes_fields_through
    (d : string) (data : value) (s s' : state) (body : value) :
  run (edit_command d data) s = (s', Some (Json 200 body)) ->
  exists dd i cmd,
    data = VDict dd /\
    dict_get "id" dd ≫= py_int = Some i /\
    body = queued_body d cmd /\
    pending_of (KStr d) s' = pending_of (KStr d) s ++ [cmd] /\
    dict_get "op" cmd = Some (VStr "edit") /\
    dict_get "id" cmd = Some (VInt i) /\
    (forall f, f ∈ ["name"; "qty"; "hour"; "minute"; "led"; "enabled"] ->
       dict_get f cmd = dict_get f dd) /\
    (forall f, f ∉ ["name"; "qty"; "hour"; "minute"; "led"; "enabled"] ->
       f ≠ "op" -> f ≠ "id" -> dict_get f cmd = None).
Proof.
  intros Hrun.
  destruct (edit_command_cases d data s) as [(cmd & _ & _ & Hb & Hok)|(o & Hrej & Hno)];
    [|rewrite Hrej in Hrun; injection Hrun as _ ->; by destruct (Hno body)].
  rewrite Hok in Hrun. injection Hrun as <- <-.
  destruct (build_edit_inv _ _ Hb) as (dd & i & -> & Hi & ->).
  eexists dd, i, _. split; [done|]. split; [done|]. split; [reflexivity|].
  split; [apply pending_after_enqueue|].
  assert ("op" ∉ ["name"; "qty"; "hour"; "minute"; "led"; "enabled"]) as Hop.
  { rewrite !not_elem_of_cons. repeat split; try done. apply not_elem_of_nil. }
  assert ("id" ∉ ["name"; "qty"; "hour"; "minute"; "led"; "enabled"]) as Hid.
  { rewrite !not_elem_of_cons. repeat split; try done. apply not_elem_of_nil. }
  split; [by rewrite copy_fields_get, decide_False|].
  split; [by rewrite copy_fields_get, decide_False|].
  split.
  - intros f Hf. rewrite copy_fields_get, decide_True by done.
    destruct (optional_fields_not_op_id f Hf) as [Hfop Hfid].
    destruct (dict_get f dd); [done|]. simpl.
    destruct (String.eqb f "op") eqn:E1; [apply String.eqb_eq in E1; done|].
    destruct (String.eqb f "id") eqn:E2; [apply String.eqb_eq in E2; done|done].
  - intros f Hf Hfop Hfid. rewrite copy_fields_get, decide_False by done. simpl.
    destruct (String.eqb f "op") eqn:E1; [apply String.eqb_eq in E1; done|].
    destruct (String.eqb f "id") eqn:E2; [apply String.eqb_eq in E2; done|done].
Qed.

(** X2.  A delete request answered with 200 carries a JSON object whose
    [id] converts with [int()]; the command appended to the device's
    pending list is exactly op "delete" with that integer id, whatever
    else the request holds. *)
Theorem delete_command_queues_id
    (d : string) (data : value) (s s' : state) (body : value) :
  run (delete_command d data) s = (s', Some (Json 200 body)) ->
  exists dd i,
    data = VDict dd /\
    dict_get "id" dd ≫= py_int = Some i /\
    body = queued_body d [("op", VStr "delete"); ("id", VInt i)] /\
    pending_of (KStr d) s' =
      pending_of (KStr d) s ++ [[("op", VStr "delete"); ("id", VInt i)]] /\
    history_of (KStr d) s' = history_of (KStr d) s.
Proof.
  intros Hrun.
  destruct (delete_command_cases d data s) as [(cmd & _ & _ & Hb & Hok)|(o & Hrej & Hno)];
    [|rewrite Hrej in Hrun; injection Hrun as _ ->; by destruct (Hno body)].
  rewrite Hok in Hrun. injection Hrun as <- <-.
  destruct (build_delete_inv _ _ Hb) as (dd & i & -> & Hi & ->).
  exists dd, i. split; [done|]. split; [done|]. split; [done|].
  split; [apply pending_after_enqueue|].
  exact (history_of_ensured (VStr d) (KStr d) (KStr d) s).
Qed.

(** X3.  The three command routes validate before they touch anything:
    whenever one of them does not answer 200 (it answers 400 or an
    [int()] conversion or a subscript raises), the whole state is what it
    was; not even a meta record is created. *)
Theorem command_routes_reject_without_change (d : string) (data : value) (s : state) :
  (forall s' o, run (add_command d data) s = (s', o) ->
     (forall b, o ≠ Some (Json 200 b)) -> s' = s) /\
  (forall s' o, run (edit_command d data) s = (s', o) ->
     (forall b, o ≠ Some (Json 200 b)) -> s' = s) /\
  (forall s' o, run (delete_command d data) s = (s', o) ->
     (forall b, o ≠ Some (Json 200 b)) -> s' = s).
Proof.
  split; [|split]; intros s' o Hrun Hno.
  - destruct (add_command_cases d data s) as [(cmd & _ & _ & _ & Hok)|(o' & Hrej & _)].
    + rewrite Hok in Hrun. injection Hrun as _ <-. by destruct (Hno (queued_body d cmd)).
    + rewrite Hrej in Hrun. by injection Hrun as <- _.
  - destruct (edit_command_cases d data s) as [(cmd & _ & _ & _ & Hok)|(o' & Hrej & _)].
    + rewrite Hok in Hrun. injection Hrun as _ <-. by destruct (Hno (queued_body d cmd)).
    + rewrite Hrej in Hrun. by injection Hrun as <- _.
  - destruct (delete_command_cases d data s) as [(cmd & _ & _ & _ & Hok)|(o' & Hrej & _)].
    + rewrite Hok in Hrun. injection Hrun as _ <-. by destruct (Hno (queued_body d cmd)).
    + rewrite Hrej in Hrun. by injection Hrun as <- _.
Qed.


(** X4.  The add route answers 200 exactly when the body is a JSON
    object that has a [name] and whose [qty], [hour], [minute] and [led]
    are present and convert with [int()].  The command it then queues
    keeps [name] as given, holds the four converted integers, and has
    [enabled] true when the request has no [enabled] and the truth value
    of the given one otherwise (so any non-empty string counts as true). *)
Theorem add_command_accepts_exactly
    (d : string) (data : value) (s s' : state) (body : value) :
  run (add_command d data) s = (s', Some (Json 200 body)) <->
  exists dd name qty hr mn led,
    data = VDict dd /\
    dict_get "name" dd = Some name /\
    dict_get "qty" dd ≫= py_int = Some qty /\
    dict_get "hour" dd ≫= py_int = Some hr /\
    dict_get "minute" dd ≫= py_int = Some mn /\
    dict_get "led" dd ≫= py_int = Some led /\
    let cmd := [("op", VStr "add"); ("name", name); ("qty", VInt qty);
                ("hour", VInt hr); ("minute", VInt mn); ("led", VInt led);
                ("enabled", VBool (match dict_get "enabled" dd with
                                   | Some v => truthy v
                                   | None => true
                                   end))] in
    body = queued_body d cmd /\
    s' = appended (KStr d) cmd (ensured (VStr d) (KStr d) s).
Proof.
  split.
  - intros Hrun.
    destruct (add_command_cases d data s) as [(cmd & _ & _ & Hb & Hok)|(o & Hrej & Hno)];
      [|rewrite Hrej in Hrun; injection Hrun as _ ->; by destruct (Hno body)].
    rewrite Hok in Hrun. injection Hrun as <- <-.
    unfold build_add in Hb.
    destruct data as [| | | | | |dd]; try done. cbn [py_getitem] in Hb.
    destruct (dict_get "name" dd) as [name|] eqn:Hname; [|done].
    destruct (dict_get "qty" dd ≫= py_int) as [qty|] eqn:Hqty;
      [|by cbn [mbind option_bind] in Hb].
    destruct (dict_get "hour" dd ≫= py_int) as [hr|] eqn:Hhr;
      [|by cbn [mbind option_bind] in Hb].
    destruct (dict_get "minute" dd ≫= py_int) as [mn|] eqn:Hmn;
      [|by cbn [mbind option_bind] in Hb].
    destruct (dict_get "led" dd ≫= py_int) as [led|] eqn:Hled;
      [|by cbn [mbind option_bind] in Hb].
    cbn [mbind option_bind] in Hb. apply (inj Some) in Hb. subst cmd.
    by exists dd, name, qty, hr, mn, led.
  - intros (dd & name & qty & hr & mn & led & -> & Hname & Hqty & Hhr & Hmn & Hled
            & Hrest).
    cbv zeta in Hrest. destruct Hrest as [-> ->].
    match goal with |- context [queued_body d ?c] => set (cmd := c) end.
    assert (build_add (VDict dd) = Some cmd) as Hb.
    { unfold build_add. cbn [py_getitem]. by rewrite Hname, Hqty, Hhr, Hmn, Hled. }
    assert (forall k y, dict_get k dd ≫= py_int = Some y -> dict_mem k dd = true) as Hmem.
    { intros k y Hk. unfold dict_mem. by destruct (dict_get k dd). }
    unfold add_command.
    assert (truthy (VDict dd) = true) as -> by (by destruct dd).
    cbn [negb any_missing py_contains].
    assert (dict_mem "name" dd = true) as -> by (unfold dict_mem; by rewrite Hname).
    rewrite (Hmem _ _ Hqty), (Hmem _ _ Hhr), (Hmem _ _ Hmn), (Hmem _ _ Hled), Hb.
    apply enqueue_reply_run.
Qed.


(** ** Deleting one history entry *)

Lemma delete_history_run (d : string) (idx : Z) (s : state) :
  run (delete_history d idx) s =
  (fst (delete_history_section d idx s), Some (RedirectTo "device_detail" (Some d))).
Proof.
  unfold delete_history, delete_history_section. simpl.
  by destruct ((0 <=? idx) && (idx <? Z.of_nat (length (history_of (KStr d) s)))).
Qed.

Lemma in_range_true (idx : Z) (n : nat) :
  0 <= idx < Z.of_nat n -> (0 <=? idx) && (idx <? Z.of_nat n) = true.
Proof.
  intros [Hlo Hhi]. apply andb_true_iff. split; [by apply Z.leb_le|by apply Z.ltb_lt].
Qed.

Lemma in_range_false (idx : Z) (n : nat) :
  ~ (0 <= idx < Z.of_nat n) -> (0 <=? idx) && (idx <? Z.of_nat n) = false.
Proof.
  intros Hout. apply andb_false_iff.
  destruct (Z.leb_spec 0 idx); [|by left]. right. apply Z.ltb_ge. lia.
Qed.

(** X5.  With [lst] the history list of device [d] (empty when [d] has
    none): deleting the history entry at an index in range removes that
    one entry, keeps the others in order and changes nothing else, the
    pending lists included; for any other index the state is unchanged. *)
Theorem delete_history_removes_one (d : string) (idx : Z) (s : state) :
  let lst := history_of (KStr d) s in
  let s' := fst (run (delete_history d idx) s) in
  (0 <= idx < Z.of_nat (length lst) ->
     history_of (KStr d) s' =
       take (Z.to_nat idx) lst ++ drop (S (Z.to_nat idx)) lst /\
     S (length (history_of (KStr d) s')) = length lst /\
     (forall k, k ≠ KStr d ->
        devices_commands_history s' !! k = devices_commands_history s !! k) /\
     devices_commands_pending s' = devices_commands_pending s /\
     devices_meds s' = devices_meds s /\
     devices_meta s' = devices_meta s /\
     clock_reads s' = clock_reads s) /\
  (~ (0 <= idx < Z.of_nat (length lst)) -> s' = s).
Proof.
  intros lst s'. subst s'. rewrite delete_history_run. cbn [fst].
  unfold delete_history_section. fold lst. split.
  - intros Hin. rewrite (in_range_true _ _ Hin). cbn [fst].
    unfold history_of at 1 2. simpl. rewrite lookup_insert_eq. simpl. unfold del_at.
    split; [apply delete_take_drop|].
    split; [rewrite length_delete; [lia|]; apply lookup_lt_is_Some; lia|].
    split; [intros k Hk; by rewrite lookup_insert_ne|done].
  - intros Hout. by rewrite (in_range_false _ _ Hout).
Qed.

(** ** Polling: first contact and repetition *)

(** X6.  A poll by a device the server has never seen registers it: the
    poll answers 200 with the pending commands of that id, and afterwards
    the id has a meta record created at the first clock reading of the
    poll with [last_seen_changes] set to the second, an empty pending list
    and a history list; the snapshots are untouched and three clock
    readings were made. *)
Theorem poll_registers_device (d : string) (s : state) :
  d ≠ "" ->
  devices_meta s !! KStr d = None ->
  exists s',
    run (get_changes (Some d)) s =
      (s', Some (Json 200 (VDict [("commands", VList (map VDict (pending_of (KStr d) s)))]))) /\
    devices_meta s' !! KStr d =
      Some [("deviceId", VStr d); ("friendly_name", VStr d);
            ("created_at", VStr (isoformat (clock (clock_reads s))));
            ("last_seen_upload", VNone);
            ("last_seen_changes", VStr (isoformat (clock (S (clock_reads s)))))] /\
    devices_commands_pending s' !! KStr d = Some [] /\
    is_Some (devices_commands_history s' !! KStr d) /\
    devices_meds s' = devices_meds s /\
    clock_reads s' = S (S (S (clock_reads s))).
Proof.
  intros Hd Hnone. eexists. split; [by apply get_changes_run|].
  unfold ensured. rewrite Hnone. simpl.
  rewrite lookup_alter_eq, !lookup_insert_eq. simpl. eauto.
Qed.

(** X7.  Two polls in a row: whatever the first one did, the second
    returns an empty command list and changes neither the pending nor the
    history dictionary, so nothing is delivered or archived twice. *)
Theorem second_poll_returns_nothing (d : string) (s : state) :
  d ≠ "" ->
  let s1 := fst (run (get_changes (Some d)) s) in
  exists s2,
    run (get_changes (Some d)) s1 =
      (s2, Some (Json 200 (VDict [("commands", VList [])]))) /\
    devices_commands_pending s2 = devices_commands_pending s1 /\
    devices_commands_history s2 = devices_commands_history s1.
Proof.
  intros Hd s1.
  assert (devices_commands_pending s1 !! KStr d = Some []) as Hp1.
  { subst s1. rewrite get_changes_run by done. simpl. by rewrite lookup_insert_eq. }
  assert (is_Some (devices_commands_history s1 !! KStr d)) as [h Hh1].
  { subst s1. rewrite get_changes_run by done. simpl. rewrite lookup_insert_eq. eauto. }
  assert (pending_of (KStr d) s1 = []) as Hq by (unfold pending_of; by rewrite Hp1).
  set (sb := touched "last_seen_changes" (KStr d) (ensured (VStr d) (KStr d) s1)).
  destruct (ensured_frame (VStr d) (KStr d) s1) as (_ & Hpa & Hha & _).
  destruct (touched_frame "last_seen_changes" (KStr d) (ensured (VStr d) (KStr d) s1))
    as (_ & Hpb & Hhb & _).
  fold sb in Hpb, Hhb.
  assert (devices_commands_pending sb = devices_commands_pending s1) as Hp by congruence.
  assert (devices_commands_history sb = devices_commands_history s1) as Hh by congruence.
  exists (drained (KStr d) sb).
  split; [rewrite get_changes_run by done; by rewrite Hq|].
  unfold drained. cbn [devices_commands_pending devices_commands_history
                         with_history with_pending tick fst now_iso].
  unfold pending_of, history_of. rewrite Hp, Hh, Hp1, Hh1. cbn [default map].
  rewrite app_nil_r. split; by apply insert_id.
Qed.


(** ** Dashboard routes *)

Lemma rename_section_ok (d name : string) (s : state) :
  is_Some (devices_meta s !! KStr d) ->
  rename_section d name s = (renamed (KStr d) name s, Some tt).
Proof.
  intros [rec Hrec]. unfold rename_section, renamed. rewrite Hrec.
  f_equal. f_equal. apply map_eq. intros k'.
  destruct (decide (KStr d = k')) as [<-|].
  - by rewrite lookup_insert_eq, lookup_alter_eq, Hrec.
  - by rewrite lookup_insert_ne, lookup_alter_ne.
Qed.

Lemma new_device_run (form_id form_name : option string) (s : state) :
  let device_id := str_strip (default "" form_id) in
  let given := str_strip (default "" form_name) in
  let name := if String.eqb given "" then device_id else given in
  run (new_device form_id form_name) s =
  if String.eqb device_id ""
  then (s, Some (Plain 400 "Device ID required"))
  else (renamed (KStr device_id) name (ensured (VStr device_id) (KStr device_id) s),
        Some (RedirectTo "device_detail" (Some device_id))).
Proof.
  intros device_id given name. unfold new_device. fold device_id given.
  destruct (String.eqb device_id ""); [done|]. fold name.
  rewrite run_bind, (ensure_run _ (KStr device_id)) by done. cbn [run].
  by rewrite rename_section_ok by apply ensured_has_meta.
Qed.

Lemma device_detail_run (d : string) (s : state) :
  let s1 := ensured (VStr d) (KStr d) s in
  run (device_detail d) s =
  (s1,
   Some (Rendered "DEVICE_TEMPLATE"
           [("meta", opt_dict (devices_meta s1 !! KStr d));
            ("snapshot",
             match devices_meds s1 !! KStr d with
             | Some sn =>
                 if truthy (VDict sn)
                 then VDict [("timestamp", py_get "timestamp" sn);
                             ("count", default (VInt 0) (dict_get "count" sn));
                             ("meds", default (VList []) (dict_get "meds" sn))]
                 else VNone
             | None => VNone
             end);
            ("pending", VList (map VDict (pending_of (KStr d) s1)));
            ("history", VList (map VDict (history_of (KStr d) s1)))])).
Proof.
  intros s1. unfold device_detail.
  by rewrite run_bind, (ensure_run _ (KStr d)) by done.
Qed.


(** X9.  The new-device form with a blank id (after stripping) is
    answered with 400 and changes nothing.  Otherwise the device is
    registered if it was not, and the friendly name of its meta record
    becomes the stripped name given, or the id when that is blank; every
    other field of an existing record, every other record and the other
    three dictionaries stay as they are. *)
Theorem new_device_sets_friendly_name
    (form_id form_name : option string) (s : state) :
  let device_id := str_strip (default "" form_id) in
  let given := str_strip (default "" form_name) in
  let name := if String.eqb given "" then device_id else given in
  let s' := fst (run (new_device form_id form_name) s) in
  (device_id = "" ->
     run (new_device form_id form_name) s = (s, Some (Plain 400 "Device ID required"))) /\
  (device_id ≠ "" ->
     snd (run (new_device form_id form_name) s) =
       Some (RedirectTo "device_detail" (Some device_id)) /\
     (exists rec',
        devices_meta s' !! KStr device_id = Some rec' /\
        dict_get "friendly_name" rec' = Some (VStr name) /\
        forall rec f, devices_meta s !! KStr device_id = Some rec ->
          f ≠ "friendly_name" -> dict_get f rec' = dict_get f rec) /\
     (forall k, k ≠ KStr device_id -> devices_meta s' !! k = devices_meta s !! k) /\
     devices_meds s' = devices_meds s /\
     devices_commands_pending s' = devices_commands_pending s /\
     devices_commands_history s' = devices_commands_history s).
Proof.
  intros device_id given name s'. subst s'.
  pose proof (new_device_run form_id form_name s) as Hrun. cbv zeta in Hrun.
  fold device_id given name in Hrun. rewrite Hrun. clear Hrun.
  split.
  - intros ->. done.
  - intros Hid. destruct (String.eqb device_id "") eqn:E;
      [apply String.eqb_eq in E; done|].
    cbn [fst snd]. split; [done|].
    destruct (ensured_has_meta (VStr device_id) (KStr device_id) s) as [rec1 Hrec1].
    destruct (ensured_frame (VStr device_id) (KStr device_id) s) as (Hm & Hp & Hh & _).
    split.
    { exists (dict_set "friendly_name" (VStr name) rec1). split.
      - unfold renamed. simpl. by rewrite lookup_alter_eq, Hrec1.
      - split; [apply dict_get_set_eq|].
        intros rec f Hrec Hf. rewrite dict_get_set_ne by done.
        unfold ensured in Hrec1. rewrite Hrec in Hrec1. congruence. }
    split.
    { intros k Hk. unfold renamed. simpl. rewrite lookup_alter_ne by done.
      unfold ensured. destruct (devices_meta s !! KStr device_id); [done|].
      simpl. by rewrite lookup_insert_ne. }
    done.
Qed.


(** ** The effect of a request on the state *)

Lemma ensure_run_unhashable (device_id : value) (s : state) :
  to_key device_id = None ->
  run (ensure_device_meta device_id) s = (s, None).
Proof. intros Hk. unfold ensure_device_meta. simpl. by rewrite Hk. Qed.

Lemma upload_cases (data : value) (s : state) :
  (exists o, run (upload_medbox data) s = (s, o) /\ forall b, o ≠ Some (Json 200 b)) \/
  (run (upload_medbox data) s = (tick s, None)) \/
  (exists dd k,
     data = VDict dd /\
     truthy (py_get "deviceId" dd) = true /\
     is_none (py_get "meds" dd) = false /\
     is_none (py_get "count" dd) = false /\
     to_key (py_get "deviceId" dd) = Some k).
Proof.
  destruct (truthy data) eqn:Ht.
  2:{ left. unfold upload_medbox. rewrite Ht. eexists. split; [reflexivity|done]. }
  destruct data as [| | | | | |dd];
    try (left; unfold upload_medbox; rewrite Ht; eexists; split; [reflexivity|done]).
  destruct (negb (truthy (py_get "deviceId" dd)) || is_none (py_get "meds" dd)
            || is_none (py_get "count" dd)) eqn:Hbad.
  { left. destruct (upload_rejected dd Hbad) as [msg ->].
    eexists. split; [reflexivity|done]. }
  apply orb_false_elim in Hbad as [Hbad Hcount].
  apply orb_false_elim in Hbad as [Htruthy Hmeds].
  apply negb_false_iff in Htruthy.
  destruct (to_key (py_get "deviceId" dd)) as [k|] eqn:Hk.
  - right. right. by exists dd, k.
  - right. left. unfold upload_medbox.
    rewrite Ht, Htruthy, Hmeds, Hcount. cbn [negb orb]. rewrite run_now_iso.
    by rewrite run_bind, ensure_run_unhashable.
Qed.

Lemma serve_effect (r : request) (s : state) :
  effect s (deletes_device r) (serve s r).
Proof.
  unfold serve.
  destruct r as [data|arg|d data|d data|d data|d|d|i n|d|d|d idx|d idx];
    cbn [handler deletes_device].
  - destruct (upload_cases data s)
      as [(o & -> & _)|[->|(dd & k & -> & Hid & Hmeds & Hcount & Hk)]];
      [apply eff_none|apply eff_tick|].
    pose proof (upload_accepted dd k s Hid Hmeds Hcount Hk) as Hacc. cbv zeta in Hacc.
    rewrite Hacc. by apply eff_upload.
  - destruct arg as [d|]; [|apply eff_none].
    destruct (decide (d = "")) as [->|Hd]; [apply eff_none|].
    rewrite get_changes_run by done. apply eff_poll.
  - destruct (add_command_cases d data s) as [(cmd & _ & _ & _ & ->)|(o & -> & _)];
      [apply eff_enqueue|apply eff_none].
  - destruct (edit_command_cases d data s) as [(cmd & _ & _ & _ & ->)|(o & -> & _)];
      [apply eff_enqueue|apply eff_none].
  - destruct (delete_command_cases d data s) as [(cmd & _ & _ & _ & ->)|(o & -> & _)];
      [apply eff_enqueue|apply eff_none].
  - unfold get_snapshot. simpl.
    destruct (devices_meds s !! KStr d) as [[|]|]; apply eff_none.
  - apply eff_none.
  - pose proof (new_device_run i n s) as Hrun. cbv zeta in Hrun. rewrite Hrun.
    destruct (String.eqb _ ""); [apply eff_none|apply eff_rename].
  - rewrite device_detail_run. apply eff_register.
  - apply eff_delete_device.
  - rewrite delete_pending_run. cbn [fst]. unfold delete_pending_section.
    destruct (decide (0 <= idx < Z.of_nat (length (pending_of (KStr d) s)))) as [Hin|Hout].
    + rewrite (in_range_true _ _ Hin). by apply eff_delete_pending.
    + rewrite (in_range_false _ _ Hout). apply eff_none.
  - rewrite delete_history_run. cbn [fst]. unfold delete_history_section.
    destruct (decide (0 <= idx < Z.of_nat (length (history_of (KStr d) s)))) as [Hin|Hout].
    + rewrite (in_range_true _ _ Hin). by apply eff_delete_history.
    + rewrite (in_range_false _ _ Hout). apply eff_none.
Qed.


(** ** No orphan records *)

Lemma orphan_step (s s' : state) (k : pykey) :
  is_Some (devices_meta s' !! k) ->
  (forall k', is_Some (devices_meta s !! k') -> is_Some (devices_meta s' !! k')) ->
  (forall k', k' ≠ k ->
     devices_meds s' !! k' = devices_meds s !! k' /\
     devices_commands_pending s' !! k' = devices_commands_pending s !! k' /\
     devices_commands_history s' !! k' = devices_commands_history s !! k') ->
  no_orphans s -> no_orphans s'.
Proof.
  intros Hk Hmeta Hother Hinv k' Hany.
  destruct (decide (k' = k)) as [->|Hne]; [done|].
  apply Hmeta, Hinv. destruct (Hother k' Hne) as (H1 & H2 & H3).
  by rewrite H1, H2, H3 in Hany.
Qed.

Lemma meta_kept_renamed (k k' : pykey) (name : string) (s : state) :
  is_Some (devices_meta s !! k') -> is_Some (devices_meta (renamed k name s) !! k').
Proof.
  intros [rec Hrec]. unfold renamed. simpl.
  destruct (decide (k = k')) as [->|].
  - rewrite lookup_alter_eq, Hrec. eauto.
  - rewrite lookup_alter_ne, Hrec by done. eauto.
Qed.

Lemma effect_no_orphans (s s' : state) (del : bool) :
  effect s del s' -> no_orphans s -> no_orphans s'.
Proof.
  intros Heff Hinv.
  destruct Heff as [| |id k snap Hk|d cmd|d|d|d name|d|d idx Hin|d idx Hin].
  - done.
  - exact Hinv.
  - apply (orphan_step s _ k); [| | |done].
    + apply meta_kept_touched, ensured_has_meta.
    + intros k' Hk'. apply meta_kept_touched, meta_kept_ensured. exact Hk'.
    + intros k' Hne. unfold stored. simpl. rewrite lookup_insert_ne by done.
      destruct (ensured_frame id k (tick s)) as (-> & -> & -> & _). done.
  - apply (orphan_step s _ (KStr d)); [| | |done].
    + apply ensured_has_meta.
    + intros k' Hk'. by apply meta_kept_ensured.
    + intros k' Hne. unfold appended. simpl. rewrite lookup_insert_ne by done.
      destruct (ensured_frame (VStr d) (KStr d) s) as (-> & -> & -> & _). done.
  - apply (orphan_step s _ (KStr d)); [| | |done].
    + apply meta_kept_touched, ensured_has_meta.
    + intros k' Hk'. apply meta_kept_touched, meta_kept_ensured. exact Hk'.
    + intros k' Hne. unfold drained. simpl. rewrite !lookup_insert_ne by done.
      destruct (ensured_frame (VStr d) (KStr d) s) as (-> & -> & -> & _). done.
  - apply (orphan_step s _ (KStr d)); [| | |done].
    + apply ensured_has_meta.
    + intros k' Hk'. by apply meta_kept_ensured.
    + intros k' Hne. destruct (ensured_frame (VStr d) (KStr d) s) as (-> & -> & -> & _). done.
  - apply (orphan_step s _ (KStr d)); [| | |done].
    + apply meta_kept_renamed, ensured_has_meta.
    + intros k' Hk'. apply meta_kept_renamed, meta_kept_ensured. exact Hk'.
    + intros k' Hne. unfold renamed. simpl.
      destruct (ensured_frame (VStr d) (KStr d) s) as (-> & -> & -> & _). done.
  - intros k' Hany. unfold device_removed in *. simpl in *.
    destruct (decide (k' = KStr d)) as [->|Hne].
    + rewrite !lookup_delete_eq in Hany. destruct Hany as [[? ?]|[[? ?]|[? ?]]]; done.
    + rewrite !lookup_delete_ne in Hany by done. rewrite lookup_delete_ne by done.
      by apply Hinv.
  - apply (orphan_step s _ (KStr d)); [| | |done].
    + apply Hinv. right. left. unfold pending_of in Hin.
      destruct (devices_commands_pending s !! KStr d); [eauto|simpl in Hin; lia].
    + done.
    + intros k' Hne. unfold pending_removed. simpl. by rewrite lookup_insert_ne.
  - apply (orphan_step s _ (KStr d)); [| | |done].
    + apply Hinv. right. right. unfold history_of in Hin.
      destruct (devices_commands_history s !! KStr d); [eauto|simpl in Hin; lia].
    + done.
    + intros k' Hne. unfold history_removed. simpl. by rewrite lookup_insert_ne.
Qed.

(** X10.  Served one request after the other, the server never leaves
    an orphan: if every device with a snapshot, a pending list or a
    history list has a meta record, the same holds after any sequence of
    requests.  It holds in particular from the empty start-up state. *)
Theorem no_orphan_records (rs : list request) (s : state) :
  no_orphans s -> no_orphans (serve_all rs s).
Proof.
  revert s. induction rs as [|r rs IH]; intros s Hinv; [done|].
  apply (IH (serve s r)). exact (effect_no_orphans s _ _ (serve_effect r s) Hinv).
Qed.


(** ** Meta records over time *)

Lemma registration_kept_refl (s : state) : registration_kept s s.
Proof. intros k rec Hrec. by exists rec. Qed.

Lemma registration_kept_trans (s1 s2 s3 : state) :
  registration_kept s1 s2 -> registration_kept s2 s3 -> registration_kept s1 s3.
Proof.
  intros H12 H23 k rec Hrec.
  destruct (H12 k rec Hrec) as (rec2 & Hrec2 & Hd2 & Hc2).
  destruct (H23 k rec2 Hrec2) as (rec3 & Hrec3 & Hd3 & Hc3).
  exists rec3. split; [done|]. split; congruence.
Qed.

Lemma registration_kept_same (s s' : state) :
  devices_meta s' = devices_meta s -> registration_kept s s'.
Proof. intros Hm k rec Hrec. exists rec. by rewrite Hm. Qed.

Lemma registration_kept_ensured (id : value) (k : pykey) (s : state) :
  registration_kept s (ensured id k s).
Proof.
  intros k' rec Hrec. exists rec. split; [|done].
  unfold ensured. destruct (devices_meta s !! k) eqn:E; [done|].
  simpl. rewrite lookup_insert_ne; [done|]. intros ->. congruence.
Qed.

Lemma registration_kept_alter (f : string) (v : value) (k : pykey) (s s' : state) :
  f ≠ "deviceId" -> f ≠ "created_at" ->
  devices_meta s' = alter (dict_set f v) k (devices_meta s) ->
  registration_kept s s'.
Proof.
  intros Hf1 Hf2 Hm k' rec Hrec. rewrite Hm.
  destruct (decide (k = k')) as [->|Hne].
  - exists (dict_set f v rec). rewrite lookup_alter_eq, Hrec.
    split; [done|]. by rewrite !dict_get_set_ne.
  - exists rec. by rewrite lookup_alter_ne.
Qed.

Lemma effect_registration (s s' : state) :
  effect s false s' -> registration_kept s s'.
Proof.
  intros Heff. inversion Heff as [| |id k snap Hk|d cmd|d|d|d name| |d idx Hin|d idx Hin]; subst.
  - apply registration_kept_refl.
  - by apply registration_kept_same.
  - eapply registration_kept_trans;
      [apply (registration_kept_same s (tick s)); done|].
    eapply registration_kept_trans; [apply (registration_kept_ensured id k)|].
    by apply (registration_kept_alter "last_seen_upload"
                (VStr (reading (ensured id k (tick s)))) k).
  - eapply registration_kept_trans; [apply (registration_kept_ensured (VStr d) (KStr d))|].
    by apply registration_kept_same.
  - eapply registration_kept_trans; [apply (registration_kept_ensured (VStr d) (KStr d))|].
    by apply (registration_kept_alter "last_seen_changes"
                (VStr (reading (ensured (VStr d) (KStr d) s))) (KStr d)).
  - apply registration_kept_ensured.
  - eapply registration_kept_trans; [apply (registration_kept_ensured (VStr d) (KStr d))|].
    by apply (registration_kept_alter "friendly_name" (VStr name) (KStr d)).
  - by apply registration_kept_same.
  - by apply registration_kept_same.
Qed.

(** X11.  As long as no device is deleted, a meta record once created
    stays, and its [deviceId] and [created_at] never change: after any
    sequence of requests without a delete-device request every record of
    the starting state is still there with the same two fields. *)
Theorem registration_is_stable (rs : list request) (s : state) :
  Forall (fun r => deletes_device r = false) rs ->
  registration_kept s (serve_all rs s).
Proof.
  revert s. induction rs as [|r rs IH]; intros s Hrs; [apply registration_kept_refl|].
  apply Forall_cons in Hrs as [Hr Hrs].
  apply (registration_kept_trans s (serve s r)); [|by apply IH].
  apply effect_registration. rewrite <- Hr. apply serve_effect.
Qed.

Lemma well_formed_later (s s' : state) :
  devices_meta s' = devices_meta s ->
  (clock_reads s <= clock_reads s')%nat ->
  records_well_formed s -> records_well_formed s'.
Proof.
  intros Hm Hc Hwf k rec Hrec. rewrite Hm in Hrec.
  destruct (Hwf k rec Hrec) as (v & n & ? & ? & ? & ?).
  exists v, n. repeat split; try done. lia.
Qed.

Lemma well_formed_ensured (id : value) (k : pykey) (s : state) :
  to_key id = Some k ->
  records_well_formed s -> records_well_formed (ensured id k s).
Proof.
  intros Hk Hwf. unfold ensured. destruct (devices_meta s !! k) eqn:E; [done|].
  intros k' rec Hrec. simpl in Hrec.
  destruct (decide (k = k')) as [<-|Hne].
  - rewrite lookup_insert_eq in Hrec. injection Hrec as <-.
    exists id, (clock_reads s). repeat split; try done. simpl. lia.
  - rewrite lookup_insert_ne in Hrec by done.
    destruct (Hwf k' rec Hrec) as (v & n & ? & ? & ? & ?).
    exists v, n. repeat split; try done. simpl. lia.
Qed.

Lemma well_formed_alter (f : string) (x : value) (k : pykey) (s s' : state) :
  f ≠ "deviceId" -> f ≠ "created_at" ->
  devices_meta s' = alter (dict_set f x) k (devices_meta s) ->
  (clock_reads s <= clock_reads s')%nat ->
  records_well_formed s -> records_well_formed s'.
Proof.
  intros Hf1 Hf2 Hm Hc Hwf k' rec' Hrec'. rewrite Hm in Hrec'.
  destruct (decide (k = k')) as [<-|Hne].
  - rewrite lookup_alter_eq in Hrec'.
    destruct (devices_meta s !! k) as [rec|] eqn:Hrec; [|done].
    injection Hrec' as <-.
    destruct (Hwf k rec Hrec) as (v & n & ? & ? & ? & ?).
    exists v, n. rewrite !dict_get_set_ne by done. repeat split; try done. lia.
  - rewrite lookup_alter_ne in Hrec' by done.
    destruct (Hwf k' rec' Hrec') as (v & n & ? & ? & ? & ?).
    exists v, n. repeat split; try done. lia.
Qed.

Lemma effect_well_formed (s s' : state) (del : bool) :
  effect s del s' -> records_well_formed s -> records_well_formed s'.
Proof.
  intros Heff Hwf.
  destruct Heff as [| |id k snap Hk|d cmd|d|d|d name|d|d idx Hin|d idx Hin].
  - done.
  - apply (well_formed_later s); [done|simpl; lia|done].
  - apply (well_formed_later (touched "last_seen_upload" k (ensured id k (tick s))));
      [done|done|].
    apply (well_formed_alter "last_seen_upload"
             (VStr (reading (ensured id k (tick s)))) k (ensured id k (tick s)));
      [done|done|done|simpl; lia|].
    apply well_formed_ensured; [done|].
    apply (well_formed_later s); [done|simpl; lia|done].
  - apply (well_formed_later (ensured (VStr d) (KStr d) s)); [done|done|].
    by apply well_formed_ensured.
  - apply (well_formed_later
             (touched "last_seen_changes" (KStr d) (ensured (VStr d) (KStr d) s)));
      [done|simpl; lia|].
    apply (well_formed_alter "last_seen_changes"
             (VStr (reading (ensured (VStr d) (KStr d) s))) (KStr d)
             (ensured (VStr d) (KStr d) s));
      [done|done|done|simpl; lia|].
    by apply well_formed_ensured.
  - by apply well_formed_ensured.
  - apply (well_formed_alter "friendly_name" (VStr name) (KStr d)
             (ensured (VStr d) (KStr d) s)); [done|done|done|done|].
    by apply well_formed_ensured.
  - intros k rec Hrec. unfold device_removed in Hrec. simpl in Hrec.
    destruct (decide (k = KStr d)) as [->|Hne].
    + by rewrite lookup_delete_eq in Hrec.
    + rewrite lookup_delete_ne in Hrec by done. by apply Hwf.
  - by apply (well_formed_later s).
  - by apply (well_formed_later s).
Qed.

(** X12.  Every meta record names its own device and carries a real
    creation time: if in every record the [deviceId] field hashes to the
    key the record is stored under and [created_at] is a clock reading
    already made, the same holds after any sequence of requests.  It
    holds in particular from the empty start-up state. *)
Theorem meta_records_well_formed (rs : list request) (s : state) :
  records_well_formed s -> records_well_formed (serve_all rs s).
Proof.
  revert s. induction rs as [|r rs IH]; intros s Hwf; [done|].
  apply (IH (serve s r)). exact (effect_well_formed s _ _ (serve_effect r s) Hwf).
Qed.


(** ** Races with a device deletion *)

Lemma touch_section_missing (field : string) (device_id : value) (k : pykey) (s : state) :
  to_key device_id = Some k ->
  devices_meta s !! k = None ->
  touch_section field device_id s = (tick s, None).
Proof. intros Hk Hnone. unfold touch_section. simpl. by rewrite Hk, Hnone. Qed.

(** X13.  A poll is not atomic.  When another request deletes the
    device after the poll has made sure twice that the meta record exists
    and before the poll sets [last_seen_changes], the poll raises (the
    [KeyError] of the missing record, an HTTP 500): it reads the clock and
    changes nothing else, so no command is handed out or archived and the
    device stays deleted. *)
Theorem poll_raises_when_device_deleted (d : string) (s : state) :
  d ≠ "" ->
  let s1 := ensured (VStr d) (KStr d) s in
  let s2 := ensured (VStr d) (KStr d) s1 in
  let s3 := fst (run (delete_device d) s2) in
  step (poll_prog d PStart) s = Some (s1, poll_prog d PEnsured) /\
  step (poll_prog d PEnsured) s1 = Some (s2, poll_prog d PEnsuredAgain) /\
  step (poll_prog d PEnsuredAgain) s3 = Some (tick s3, Raise) /\
  devices_meta (tick s3) !! KStr d = None /\
  devices_meds (tick s3) !! KStr d = None /\
  devices_commands_pending (tick s3) !! KStr d = None /\
  devices_commands_history (tick s3) !! KStr d = None.
Proof.
  intros Hd s1 s2 s3.
  split; [by rewrite poll_step|]. split; [by rewrite poll_step|].
  assert (devices_meta s3 !! KStr d = None) as Hnone.
  { subst s3. simpl. apply lookup_delete_eq. }
  split.
  - change (step (WithLock (touch_section "last_seen_changes" (VStr d))
                    (fun x => WithLock (drain_section (KStr d)) reply_commands)) s3 =
            Some (tick s3, Raise)).
    unfold step. by rewrite (touch_section_missing _ _ (KStr d)).
  - subst s3. simpl. by rewrite !lookup_delete_eq.
Qed.

(** X14.  An enqueue is not atomic either.  When another request
    deletes the device between the two blocks of [enqueue_command], the
    second block still appends: the command ends up pending for a device
    that has no meta record, an orphan that no sequence of requests served
    one after the other can produce. *)
Theorem enqueue_after_delete_leaves_orphan (d : string) (cmd : dict) (s : state) :
  let s1 := ensured (VStr d) (KStr d) s in
  let s2 := fst (run (delete_device d) s1) in
  let s3 := appended (KStr d) cmd s2 in
  step (enq_prog (VStr d) cmd EStart) s = Some (s1, enq_prog (VStr d) cmd EEnsured) /\
  step (enq_prog (VStr d) cmd EEnsured) s2 = Some (s3, enq_prog (VStr d) cmd EDone) /\
  devices_commands_pending s3 !! KStr d = Some [cmd] /\
  devices_meta s3 !! KStr d = None /\
  ~ no_orphans s3.
Proof.
  intros s1 s2 s3.
  split; [by rewrite enq_step|]. split; [by rewrite enq_step|].
  assert (devices_commands_pending s3 !! KStr d = Some [cmd]) as Hp.
  { subst s3 s2. unfold appended, pending_of. simpl.
    by rewrite lookup_insert_eq, lookup_delete_eq. }
  assert (devices_meta s3 !! KStr d = None) as Hm.
  { subst s3 s2. simpl. apply lookup_delete_eq. }
  split; [exact Hp|]. split; [exact Hm|].
  intros Hinv. destruct (Hinv (KStr d)) as [rec Hrec].
  - right. left. rewrite Hp. eauto.
  - congruence.
Qed.


(** ** Concurrent enqueues *)








(** ** Uploads: what is stored, what is answered, what a failure leaves *)

Lemma upload_accepted_inv (data : value) (s s' : state) (body : value) :
  run (upload_medbox data) s = (s', Some (Json 200 body)) ->
  exists dd k,
    data = VDict dd /\
    truthy (py_get "deviceId" dd) = true /\
    is_none (py_get "meds" dd) = false /\
    is_none (py_get "count" dd) = false /\
    to_key (py_get "deviceId" dd) = Some k.
Proof.
  intros Hrun.
  destruct (upload_cases data s) as [(o & Hrej & Hno)|[Hraise|Hacc]].
  - rewrite Hrej in Hrun. injection Hrun as _ ->. by destruct (Hno body).
  - rewrite Hraise in Hrun. discriminate Hrun.
  - exact Hacc.
Qed.

(** X16.  What an accepted upload leaves and answers.  The answer
    echoes the [deviceId] and [count] of the request, and its [storedAt]
    is the timestamp of the snapshot now stored under the device's key,
    the first clock reading of the request.  The device's meta record has
    [last_seen_upload] set to a later reading of the same request.  The
    pending and history dictionaries are not touched. *)
Theorem upload_response_matches_store (data : value) (s s' : state) (body : value) :
  run (upload_medbox data) s = (s', Some (Json 200 body)) ->
  exists dd k rec m,
    data = VDict dd /\
    to_key (py_get "deviceId" dd) = Some k /\
    body = VDict [("status", VStr "ok"); ("deviceId", py_get "deviceId" dd);
                  ("receivedCount", py_get "count" dd);
                  ("storedAt", VStr (isoformat (clock (clock_reads s))))] /\
    devices_meds s' !! k =
      Some [("timestamp", VStr (isoformat (clock (clock_reads s))));
            ("count", py_get "count" dd); ("meds", py_get "meds" dd)] /\
    devices_meta s' !! k = Some rec /\
    dict_get "last_seen_upload" rec = Some (VStr (isoformat (clock m))) /\
    (clock_reads s < m < clock_reads s')%nat /\
    devices_commands_pending s' = devices_commands_pending s /\
    devices_commands_history s' = devices_commands_history s.
Proof.
  intros Hrun.
  destruct (upload_accepted_inv _ _ _ _ Hrun) as (dd & k & -> & Hid & Hmeds & Hcount & Hk).
  pose proof (upload_accepted dd k s Hid Hmeds Hcount Hk) as Hacc. cbv zeta in Hacc.
  rewrite Hacc in Hrun. injection Hrun as <- <-.
  set (sa := ensured (py_get "deviceId" dd) k (tick s)).
  destruct (ensured_has_meta (py_get "deviceId" dd) k (tick s)) as [rec Hrec].
  destruct (ensured_frame (py_get "deviceId" dd) k (tick s)) as (_ & Hp & Hh & Hc).
  fold sa in Hrec, Hp, Hh, Hc.
  exists dd, k, (dict_set "last_seen_upload" (VStr (reading sa)) rec), (clock_reads sa).
  split; [done|]. split; [done|]. split; [done|].
  split; [simpl; by rewrite lookup_insert_eq|].
  split; [simpl; by rewrite lookup_alter_eq, Hrec|].
  split; [apply dict_get_set_eq|].
  split; [simpl in *; lia|]. split; [exact Hp|exact Hh].
Qed.

(** X17.  An upload that is not answered with 200 (a rejected one, or
    one that raises because the body is not an object or the device id is
    unhashable) stores nothing: the four dictionaries are what they were. *)
Theorem upload_failure_stores_nothing (data : value) (s s' : state) (o : option response) :
  run (upload_medbox data) s = (s', o) ->
  (forall b, o ≠ Some (Json 200 b)) ->
  devices_meds s' = devices_meds s /\
  devices_meta s' = devices_meta s /\
  devices_commands_pending s' = devices_commands_pending s /\
  devices_commands_history s' = devices_commands_history s.
Proof.
  intros Hrun Hno.
  destruct (upload_cases data s)
    as [(o' & Hrej & _)|[Hraise|(dd & k & -> & Hid & Hmeds & Hcount & Hk)]].
  - rewrite Hrej in Hrun. by injection Hrun as <- _.
  - rewrite Hraise in Hrun. by injection Hrun as <- _.
  - pose proof (upload_accepted dd k s Hid Hmeds Hcount Hk) as Hacc. cbv zeta in Hacc.
    rewrite Hacc in Hrun. injection Hrun as _ <-. by edestruct Hno.
Qed.

Lemma get_snapshot_run (d : string) (s : state) :
  run (get_snapshot d) s =
  (s, Some (match devices_meds s !! KStr d with
            | Some sn => if truthy (VDict sn) then Json 200 (VDict sn) else Aborted 404
            | None => Aborted 404
            end)).
Proof.
  unfold get_snapshot. simpl. by destruct (devices_meds s !! KStr d) as [[|]|].
Qed.

(** X18.  The snapshot route looks devices up by the string of the URL,
    but an upload files the snapshot under whatever its [deviceId] is.
    An upload accepted with a [deviceId] that is not a string (a number,
    [true]) therefore changes the answer of the snapshot route for no
    device at all, as long as the server runs. *)
Theorem upload_non_string_id_is_invisible
    (dd : dict) (k : pykey) (s s' : state) (body : value) :
  run (upload_medbox (VDict dd)) s = (s', Some (Json 200 body)) ->
  to_key (py_get "deviceId" dd) = Some k ->
  (forall d, k ≠ KStr d) ->
  is_Some (devices_meds s' !! k) /\
  forall d,
    devices_meds s' !! KStr d = devices_meds s !! KStr d /\
    snd (run (get_snapshot d) s') = snd (run (get_snapshot d) s).
Proof.
  intros Hrun Hk Hnum.
  destruct (upload_accepted_inv _ _ _ _ Hrun) as (dd' & k' & [= <-] & Hid & Hmeds & Hcount & Hk').
  assert (k' = k) as -> by congruence.
  pose proof (upload_accepted dd k s Hid Hmeds Hcount Hk) as Hacc. cbv zeta in Hacc.
  rewrite Hacc in Hrun. injection Hrun as Hs' _.
  split; [rewrite <- Hs'; simpl; rewrite lookup_insert_eq; eauto|].
  intros d.
  assert (devices_meds s' !! KStr d = devices_meds s !! KStr d) as Hsame.
  { rewrite <- Hs'. simpl. rewrite lookup_insert_ne by apply Hnum.
    by rewrite (proj1 (ensured_frame _ _ _)). }
  split; [exact Hsame|].
  rewrite !get_snapshot_run. cbn [snd]. by rewrite Hsame.
Qed.

(** ** Deleting twice, deleting before a poll *)

(** X19.  Deleting a device the server does not know is not an error
    and changes nothing, so deleting a device a second time leaves the
    state the first deletion left. *)
Theorem delete_device_twice (d : string) (s : state) :
  (devices_meta s !! KStr d = None ->
   devices_meds s !! KStr d = None ->
   devices_commands_pending s !! KStr d = None ->
   devices_commands_history s !! KStr d = None ->
   run (delete_device d) s = (s, Some (RedirectTo "index" None))) /\
  run (delete_device d) (fst (run (delete_device d) s)) =
    (fst (run (delete_device d) s), Some (RedirectTo "index" None)).
Proof.
  split.
  - intros Hm Hs Hp Hh. unfold delete_device. simpl.
    rewrite !delete_id by done. by destruct s.
  - unfold delete_device. simpl. by rewrite !delete_delete_eq.
Qed.

(** X20.  A pending command deleted by the operator before the device
    polls is neither delivered nor archived: the poll returns the pending
    list without the element at the deleted index, and the history grows
    by the stamped copies of exactly those commands. *)
Theorem deleted_command_never_delivered (d : string) (idx : Z) (s : state) :
  d ≠ "" ->
  0 <= idx < Z.of_nat (length (pending_of (KStr d) s)) ->
  let rest := delete (Z.to_nat idx) (pending_of (KStr d) s) in
  let s1 := fst (run (delete_pending d idx) s) in
  exists s2 t,
    run (get_changes (Some d)) s1 =
      (s2, Some (Json 200 (VDict [("commands", VList (map VDict rest))]))) /\
    history_of (KStr d) s2 = history_of (KStr d) s ++ map (sent_entry t) rest /\
    S (length rest) = length (pending_of (KStr d) s).
Proof.
  intros Hd Hin rest s1.
  assert (pending_of (KStr d) s1 = rest) as Hp1.
  { subst s1. rewrite delete_pending_run. cbn [fst]. unfold delete_pending_section.
    rewrite (in_range_true _ _ Hin). cbn [fst].
    unfold pending_of at 1. simpl. by rewrite lookup_insert_eq. }
  assert (history_of (KStr d) s1 = history_of (KStr d) s) as Hh1.
  { subst s1. rewrite delete_pending_run. cbn [fst]. unfold delete_pending_section.
    by rewrite (in_range_true _ _ Hin). }
  set (sb := touched "last_seen_changes" (KStr d) (ensured (VStr d) (KStr d) s1)).
  exists (drained (KStr d) sb), (reading sb).
  split; [rewrite get_changes_run by done; by rewrite Hp1|].
  split.
  - rewrite history_of_drained, decide_True by done.
    assert (pending_of (KStr d) sb = pending_of (KStr d) s1) as ->.
    { unfold pending_of. subst sb. rewrite (proj1 (proj2 (touched_frame _ _ _))).
      by rewrite (proj1 (proj2 (ensured_frame _ _ _))). }
    assert (history_of (KStr d) sb = history_of (KStr d) s1) as ->.
    { unfold history_of. subst sb. rewrite (proj1 (proj2 (proj2 (touched_frame _ _ _)))).
      by rewrite (proj1 (proj2 (proj2 (ensured_frame _ _ _)))). }
    by rewrite Hp1, Hh1.
  - subst rest. rewrite length_delete; [lia|]. apply lookup_lt_is_Some. lia.
Qed.

(** ** The archive format *)

Lemma dict_set_absent (k : string) (v : value) (d : dict) :
  dict_get k d = None -> dict_set k v d = d ++ [(k, v)].
Proof.
  induction d as [|[k' v'] d IH]; simpl; [done|].
  destruct (String.eqb k k'); [done|]. intros Hd. by rewrite IH.
Qed.

Lemma dict_get_app_absent (k k' : string) (v : value) (d : dict) :
  k ≠ k' -> dict_get k (d ++ [(k', v)]) = dict_get k d.
Proof.
  intros Hne. induction d as [|[k0 v0] d IH]; simpl.
  - destruct (String.eqb k k') eqn:E; [apply String.eqb_eq in E; done|done].
  - by destruct (String.eqb k k0).
Qed.

(** X21.  The history entry made from a delivered command that has
    neither a [status] nor a [sent_at] key is the command itself followed by
    [status = "sent"] and [sent_at], in this order; so a poll appends to
    the history exactly these extended copies of the pending commands. *)
Theorem history_entry_extends_command (d : string) (s : state) :
  d ≠ "" ->
  Forall (fun c => dict_get "status" c = None /\ dict_get "sent_at" c = None)
         (pending_of (KStr d) s) ->
  exists s' t,
    run (get_changes (Some d)) s =
      (s', Some (Json 200 (VDict [("commands", VList (map VDict (pending_of (KStr d) s)))]))) /\
    history_of (KStr d) s' =
      history_of (KStr d) s ++
      map (fun c => c ++ [("status", VStr "sent"); ("sent_at", VStr t)])
          (pending_of (KStr d) s).
Proof.
  intros Hd Hplain.
  set (sb := touched "last_seen_changes" (KStr d) (ensured (VStr d) (KStr d) s)).
  exists (drained (KStr d) sb), (reading sb).
  split; [by rewrite get_changes_run|].
  rewrite history_of_drained, decide_True by done.
  assert (pending_of (KStr d) sb = pending_of (KStr d) s) as ->.
  { unfold pending_of. subst sb. rewrite (proj1 (proj2 (touched_frame _ _ _))).
    by rewrite (proj1 (proj2 (ensured_frame _ _ _))). }
  assert (history_of (KStr d) sb = history_of (KStr d) s) as ->.
  { unfold history_of. subst sb. rewrite (proj1 (proj2 (proj2 (touched_frame _ _ _)))).
    by rewrite (proj1 (proj2 (proj2 (ensured_frame _ _ _)))). }
  f_equal. induction Hplain as [|c cs [Hst Hat] _ IH]; [done|].
  simpl. rewrite IH. f_equal. unfold sent_entry.
  rewrite (dict_set_absent "status") by done.
  rewrite (dict_set_absent "sent_at") by (by rewrite dict_get_app_absent).
  by rewrite <- app_assoc.
Qed.

End Model.

(** ** Worked examples

    Each theorem above that has a premise is applied here to concrete
    data, with the runtime of the examples. *)

Lemma demo_clock_mono (m n : nat) :
  (m <= n)%nat -> dt_le (@clock demo_runtime m) (@clock demo_runtime n).
Proof.
  intros Hmn. unfold dt_le. simpl.
  destruct (Z.ltb_spec (Z.of_nat m `min` 999999) (Z.of_nat n `min` 999999)); [done|].
  destruct (Z.ltb_spec (Z.of_nat n `min` 999999) (Z.of_nat m `min` 999999)); [lia|done].
Qed.

(** Two commands enqueued for "X" on a fresh server, then one poll. *)
Lemma poll_returns_fifo_witness :
  "X" ≠ "" /\
  exists s2,
    @run demo_runtime _ (@get_changes demo_runtime (Some "X"))
      (@enqueue_all demo_runtime (VStr "X") [demo_add; demo_delete] empty_state) =
    (s2, Some (Json 200 (VDict [("commands", VList [VDict demo_add; VDict demo_delete])]))) /\
    devices_commands_pending s2 !! KStr "X" = Some [] /\
    length (history_of (KStr "X") s2) = 2%nat.
Proof.
  split; [done|].
  destruct (@poll_returns_fifo demo_runtime "X" [demo_add; demo_delete] empty_state
              ltac:(done) demo_clock_mono)
    as (s2 & n & Hrun & Hpend & _ & Hlen & _).
  exists s2. split; [exact Hrun|]. split; [exact Hpend|exact Hlen].
Defined.

(** The upload of the specification's example, then the snapshot route. *)
Lemma upload_then_snapshot_witness :
  exists s',
    @run demo_runtime _ (get_snapshot "X") s' =
    (s', Some (Json 200 (VDict [("timestamp", VStr "2025-11-18T21:28:49");
                                ("count", py_get "count" demo_upload);
                                ("meds", py_get "meds" demo_upload)]))).
Proof.
  pose proof (@upload_accepted demo_runtime demo_upload (KStr "X") empty_state
                eq_refl eq_refl eq_refl eq_refl) as Hacc.
  cbv zeta in Hacc.
  destruct (@upload_then_snapshot demo_runtime demo_upload "X" empty_state _ _ eq_refl Hacc)
    as (Hsnap & _).
  eexists. exact Hsnap.
Defined.

(** An upload without [meds]. *)
Lemma upload_missing_field_rejected_witness :
  dict_mem "meds" demo_upload_no_meds = false /\
  exists msg,
    @run demo_runtime _ (@upload_medbox demo_runtime (VDict demo_upload_no_meds)) empty_state =
    (empty_state, Some (Json 400 (error_body msg))).
Proof.
  split; [reflexivity|].
  destruct (@upload_missing_field_rejected demo_runtime demo_upload_no_meds empty_state
              (or_intror (or_introl eq_refl)))
    as (msg & _ & Hrun & _).
  exists msg. exact Hrun.
Defined.

(** An empty device id is refused, a zero count with no meds is stored. *)
Lemma upload_falsy_fields_witness :
  @upload_medbox demo_runtime (VDict demo_upload_empty_id) =
    Ret (Json 400 (error_body "missing fields")) /\
  exists s' body,
    @run demo_runtime _ (@upload_medbox demo_runtime (VDict demo_upload_zero)) empty_state =
      (s', Some (Json 200 body)) /\
    devices_meds s' !! KStr "X" =
      Some [("timestamp", VStr "2025-11-18T21:28:49"); ("count", VInt 0); ("meds", VList [])].
Proof.
  split.
  - exact (proj1 (@upload_falsy_fields demo_runtime demo_upload_empty_id empty_state) eq_refl).
  - exact (proj2 (@upload_falsy_fields demo_runtime demo_upload_zero empty_state)
             "X" ltac:(done) eq_refl eq_refl eq_refl).
Defined.

(** Three commands pending for "X"; the one at index 1 is deleted. *)
Lemma delete_pending_removes_one_witness :
  let s := @enqueue_all demo_runtime (VStr "X") [demo_add; demo_edit; demo_delete] empty_state in
  0 <= 1 < Z.of_nat (length (pending_of (KStr "X") s)) /\
  pending_of (KStr "X") (fst (@run demo_runtime _ (delete_pending "X" 1) s)) =
    [demo_add; demo_delete] /\
  ~ (0 <= 7 < Z.of_nat (length (pending_of (KStr "X") s))) /\
  fst (@run demo_runtime _ (delete_pending "X" 7) s) = s.
Proof.
  intros s.
  assert (0 <= 1 < Z.of_nat (length (pending_of (KStr "X") s))) as Hin
    by (split; [done|by vm_compute]).
  assert (~ (0 <= 7 < Z.of_nat (length (pending_of (KStr "X") s)))) as Hout
    by (intros [_ Hlt]; by vm_compute in Hlt).
  split; [exact Hin|].
  split; [exact (proj1 (proj1 (@delete_pending_removes_one demo_runtime "X" 1 s) Hin))|].
  split; [exact Hout|].
  exact (proj2 (@delete_pending_removes_one demo_runtime "X" 7 s) Hout).
Defined.


(** The add command of the specification's example. *)
Lemma add_command_int_fields_witness :
  exists s',
    @run demo_runtime _ (@add_command demo_runtime "X" demo_add_request) empty_state =
      (s', Some (Json 200 (queued_body "X" demo_add))) /\
    exists dd cmd hr mn,
      demo_add_request = VDict dd /\
      dict_get "hour" cmd = Some (VInt hr) /\
      dict_get "minute" cmd = Some (VInt mn) /\
      pending_of (KStr "X") s' = pending_of (KStr "X") empty_state ++ [cmd].
Proof.
  assert (@run demo_runtime _ (@add_command demo_runtime "X" demo_add_request) empty_state =
          (fst (@run demo_runtime _ (@add_command demo_runtime "X" demo_add_request) empty_state),
           Some (Json 200 (queued_body "X" demo_add)))) as Hrun
    by (vm_compute; reflexivity).
  eexists. split; [exact Hrun|].
  destruct (@add_command_int_fields demo_runtime "X" demo_add_request empty_state _ _ Hrun)
    as (dd & cmd & hr & mn & Hdd & _ & _ & Hh & Hm & _ & Hp).
  exists dd, cmd, hr, mn. auto.
Defined.



(** The device "X" is deleted after its first upload; "Y" is untouched. *)
Lemma delete_device_all_stores_witness :
  KStr "Y" ≠ KStr "X" /\
  let s := @serve demo_runtime empty_state (ReqUpload (VDict demo_upload)) in
  exists s',
    @run demo_runtime _ (delete_device "X") s = (s', Some (RedirectTo "index" None)) /\
    devices_meta s' !! KStr "X" = None /\
    devices_meds s' !! KStr "X" = None /\
    devices_meta s' !! KStr "Y" = devices_meta s !! KStr "Y" /\
    @run demo_runtime _ (get_snapshot "X") s' = (s', Some (Aborted 404)).
Proof.
  split; [done|]. intros s.
  destruct (@delete_device_all_stores demo_runtime "X" s)
    as (s' & _ & _ & Hrun & Hmeta & Hmeds & _ & _ & Hother & Hsnap).
  exists s'. split; [exact Hrun|]. split; [exact Hmeta|]. split; [exact Hmeds|].
  split; [exact (proj1 (Hother (KStr "Y") ltac:(done)))|exact Hsnap].
Defined.


(** ** Worked examples for the further properties *)

(** An edit whose hour is the string "8pm" and that has a stray key. *)
Lemma edit_command_passes_fields_through_witness :
  exists s' dd i cmd,
    @run demo_runtime _ (@edit_command demo_runtime "X" demo_edit_request) empty_state =
      (s', Some (Json 200 (queued_body "X" demo_edit_queued))) /\
    demo_edit_request = VDict dd /\
    dict_get "id" cmd = Some (VInt i) /\
    dict_get "hour" cmd = dict_get "hour" dd /\
    dict_get "color" cmd = None.
Proof.
  assert (@run demo_runtime _ (@edit_command demo_runtime "X" demo_edit_request) empty_state =
          (fst (@run demo_runtime _ (@edit_command demo_runtime "X" demo_edit_request)
                  empty_state),
           Some (Json 200 (queued_body "X" demo_edit_queued)))) as Hrun
    by (vm_compute; reflexivity).
  destruct (@edit_command_passes_fields_through demo_runtime "X" demo_edit_request
              empty_state _ _ Hrun)
    as (dd & i & cmd & Hdd & _ & _ & _ & _ & Hid & Hin & Hout).
  eexists _, dd, i, cmd. split; [exact Hrun|]. split; [exact Hdd|]. split; [exact Hid|].
  split.
  - apply Hin. do 2 apply list_elem_of_further. apply list_elem_of_here.
  - apply Hout; [|done|done].
    rewrite !not_elem_of_cons. repeat split; try done. apply not_elem_of_nil.
Defined.

(** A delete whose id is the string " 7 ". *)
Lemma delete_command_queues_id_witness :
  exists s',
    @run demo_runtime _ (@delete_command demo_runtime "X" demo_delete_request) empty_state =
      (s', Some (Json 200 (queued_body "X" [("op", VStr "delete"); ("id", VInt 7)]))) /\
    exists i,
      pending_of (KStr "X") s' =
        pending_of (KStr "X") empty_state ++ [[("op", VStr "delete"); ("id", VInt i)]].
Proof.
  assert (@run demo_runtime _ (@delete_command demo_runtime "X" demo_delete_request)
            empty_state =
          (fst (@run demo_runtime _ (@delete_command demo_runtime "X" demo_delete_request)
                  empty_state),
           Some (Json 200 (queued_body "X" [("op", VStr "delete"); ("id", VInt 7)]))))
    as Hrun by (vm_compute; reflexivity).
  destruct (@delete_command_queues_id demo_runtime "X" demo_delete_request
              empty_state _ _ Hrun)
    as (dd & i & _ & _ & _ & Hp & _).
  eexists. split; [exact Hrun|]. exists i. exact Hp.
Defined.

(** An add request without [led] is refused and leaves the server empty. *)
Lemma command_routes_reject_without_change_witness :
  fst (@run demo_runtime _ (@add_command demo_runtime "X" demo_add_incomplete) empty_state) =
  empty_state.
Proof.
  apply (proj1 (@command_routes_reject_without_change demo_runtime "X" demo_add_incomplete
                  empty_state)
           _ (snd (@run demo_runtime _ (@add_command demo_runtime "X" demo_add_incomplete)
                     empty_state))).
  - apply surjective_pairing.
  - intros b Hb. vm_compute in Hb. discriminate Hb.
Defined.

(** The add request of the specification's example is accepted. *)
Lemma add_command_accepts_exactly_witness :
  exists s' dd name,
    @run demo_runtime _ (@add_command demo_runtime "X" demo_add_request) empty_state =
      (s', Some (Json 200 (queued_body "X" demo_add))) /\
    demo_add_request = VDict dd /\
    dict_get "name" dd = Some name.
Proof.
  assert (@run demo_runtime _ (@add_command demo_runtime "X" demo_add_request) empty_state =
          (fst (@run demo_runtime _ (@add_command demo_runtime "X" demo_add_request)
                  empty_state),
           Some (Json 200 (queued_body "X" demo_add)))) as Hrun
    by (vm_compute; reflexivity).
  destruct (proj1 (@add_command_accepts_exactly demo_runtime "X" demo_add_request
                     empty_state _ _) Hrun)
    as (dd & name & qty & hr & mn & led & Hdd & Hname & _).
  eexists _, dd, name. split; [exact Hrun|]. split; [exact Hdd|exact Hname].
Defined.

(** Two commands delivered to "X"; the first history entry is deleted. *)
Lemma delete_history_removes_one_witness :
  let s := @serve demo_runtime
             (@enqueue_all demo_runtime (VStr "X") [demo_add; demo_delete] empty_state)
             (ReqChanges (Some "X")) in
  0 <= 0 < Z.of_nat (length (history_of (KStr "X") s)) /\
  S (length (history_of (KStr "X") (fst (@run demo_runtime _ (delete_history "X" 0) s)))) =
    length (history_of (KStr "X") s) /\
  ~ (0 <= 2 < Z.of_nat (length (history_of (KStr "X") s))) /\
  fst (@run demo_runtime _ (delete_history "X" 2) s) = s.
Proof.
  intros s.
  assert (0 <= 0 < Z.of_nat (length (history_of (KStr "X") s))) as Hin
    by (split; [done|by vm_compute]).
  assert (~ (0 <= 2 < Z.of_nat (length (history_of (KStr "X") s)))) as Hout
    by (intros [_ Hlt]; by vm_compute in Hlt).
  split; [exact Hin|].
  split; [exact (proj1 (proj2 (proj1 (@delete_history_removes_one demo_runtime "X" 0 s) Hin)))|].
  split; [exact Hout|].
  exact (proj2 (@delete_history_removes_one demo_runtime "X" 2 s) Hout).
Defined.

(** The first poll of "X" on a fresh server. *)
Lemma poll_registers_device_witness :
  "X" ≠ "" /\ devices_meta empty_state !! KStr "X" = None /\
  exists s',
    @run demo_runtime _ (@get_changes demo_runtime (Some "X")) empty_state =
      (s', Some (Json 200 (VDict [("commands", VList [])]))) /\
    devices_meta s' !! KStr "X" =
      Some [("deviceId", VStr "X"); ("friendly_name", VStr "X");
            ("created_at", VStr "2025-11-18T21:28:49");
            ("last_seen_upload", VNone);
            ("last_seen_changes", VStr "2025-11-18T21:28:49.000001")] /\
    devices_commands_pending s' !! KStr "X" = Some [].
Proof.
  split; [done|]. split; [reflexivity|].
  destruct (@poll_registers_device demo_runtime "X" empty_state ltac:(done) eq_refl)
    as (s' & Hrun & Hmeta & Hpend & _).
  exists s'. split; [exact Hrun|]. split; [exact Hmeta|exact Hpend].
Defined.

(** A command queued for "X", then two polls. *)
Lemma second_poll_returns_nothing_witness :
  "X" ≠ "" /\
  let s1 := fst (@run demo_runtime _ (@get_changes demo_runtime (Some "X"))
                   (@enqueue_all demo_runtime (VStr "X") [demo_add] empty_state)) in
  exists s2,
    @run demo_runtime _ (@get_changes demo_runtime (Some "X")) s1 =
      (s2, Some (Json 200 (VDict [("commands", VList [])]))) /\
    devices_commands_history s2 = devices_commands_history s1.
Proof.
  split; [done|]. intros s1.
  destruct (@second_poll_returns_nothing demo_runtime "X"
              (@enqueue_all demo_runtime (VStr "X") [demo_add] empty_state) ltac:(done))
    as (s2 & Hrun & _ & Hh).
  exists s2. split; [exact Hrun|exact Hh].
Defined.


(** The form sent with id "  X  " and no name. *)
Lemma new_device_sets_friendly_name_witness :
  @str_strip demo_runtime (default "" (Some "  X  ")) ≠ "" /\
  exists rec',
    devices_meta
      (fst (@run demo_runtime _ (@new_device demo_runtime (Some "  X  ") None) empty_state))
      !! KStr "X" = Some rec' /\
    dict_get "friendly_name" rec' = Some (VStr "X").
Proof.
  assert (@str_strip demo_runtime (default "" (Some "  X  ")) ≠ "") as Hid by done.
  split; [exact Hid|].
  destruct (proj2 (@new_device_sets_friendly_name demo_runtime (Some "  X  ") None
                     empty_state) Hid)
    as (_ & (rec' & Hrec & Hname & _) & _).
  exists rec'. split; [exact Hrec|exact Hname].
Defined.

(** An upload, an add and a poll on a fresh server. *)
Lemma no_orphan_records_witness :
  no_orphans empty_state /\
  @no_orphans
    (@serve_all demo_runtime
       [ReqUpload (VDict demo_upload); ReqAdd "Y" demo_add_request; ReqChanges (Some "Z")]
       empty_state).
Proof.
  assert (no_orphans empty_state) as Hempty.
  { intros k [[x Hx]|[[x Hx]|[x Hx]]]; simpl in Hx; by rewrite lookup_empty in Hx. }
  split; [exact Hempty|].
  exact (@no_orphan_records demo_runtime _ empty_state Hempty).
Defined.

(** "X" is registered by its page; a poll and an upload follow. *)
Lemma registration_is_stable_witness :
  let s := @serve demo_runtime empty_state (ReqDeviceDetail "X") in
  let rs := [ReqChanges (Some "X"); ReqUpload (VDict demo_upload)] in
  Forall (fun r => deletes_device r = false) rs /\
  registration_kept s (@serve_all demo_runtime rs s).
Proof.
  intros s rs.
  assert (Forall (fun r => deletes_device r = false) rs) as Hrs
    by (repeat constructor).
  split; [exact Hrs|].
  exact (@registration_is_stable demo_runtime rs s Hrs).
Defined.

(** The same requests from the empty server. *)
Lemma meta_records_well_formed_witness :
  @records_well_formed demo_runtime empty_state /\
  @records_well_formed demo_runtime
    (@serve_all demo_runtime
       [ReqDeviceDetail "X"; ReqChanges (Some "X"); ReqUpload (VDict demo_upload_numeric)]
       empty_state).
Proof.
  assert (@records_well_formed demo_runtime empty_state) as Hempty.
  { intros k rec Hrec. simpl in Hrec. by rewrite lookup_empty in Hrec. }
  split; [exact Hempty|].
  exact (@meta_records_well_formed demo_runtime _ empty_state Hempty).
Defined.

(** A poll of "X" with a command pending, cut by a deletion of "X". *)
Lemma poll_raises_when_device_deleted_witness :
  "X" ≠ "" /\
  let s := @enqueue_all demo_runtime (VStr "X") [demo_add] empty_state in
  let s3 := fst (@run demo_runtime _ (delete_device "X")
                   (@ensured demo_runtime (VStr "X") (KStr "X")
                      (@ensured demo_runtime (VStr "X") (KStr "X") s))) in
  @step demo_runtime _ (@poll_prog demo_runtime "X" PEnsuredAgain) s3 =
    Some (@tick demo_runtime s3, Raise).
Proof.
  split; [done|]. intros s s3.
  exact (proj1 (proj2 (proj2
           (@poll_raises_when_device_deleted demo_runtime "X" s ltac:(done))))).
Defined.

(** An enqueue for "X" on a fresh server, cut by a deletion of "X". *)
Lemma enqueue_after_delete_leaves_orphan_witness :
  let s3 := @appended (KStr "X") demo_add
              (fst (@run demo_runtime _ (delete_device "X")
                      (@ensured demo_runtime (VStr "X") (KStr "X") empty_state))) in
  devices_commands_pending s3 !! KStr "X" = Some [demo_add] /\
  devices_meta s3 !! KStr "X" = None.
Proof.
  intros s3.
  destruct (@enqueue_after_delete_leaves_orphan demo_runtime "X" demo_add empty_state)
    as (_ & _ & Hp & Hm & _).
  split; [exact Hp|exact Hm].
Defined.


(** The upload of the specification's example. *)
Lemma upload_response_matches_store_witness :
  exists s' k,
    @run demo_runtime _ (@upload_medbox demo_runtime (VDict demo_upload)) empty_state =
      (s', Some (Json 200 (VDict [("status", VStr "ok"); ("deviceId", VStr "X");
                                  ("receivedCount", VInt 1);
                                  ("storedAt", VStr "2025-11-18T21:28:49")]))) /\
    devices_meds s' !! k =
      Some [("timestamp", VStr "2025-11-18T21:28:49");
            ("count", py_get "count" demo_upload); ("meds", py_get "meds" demo_upload)].
Proof.
  pose proof (@upload_accepted demo_runtime demo_upload (KStr "X") empty_state
                eq_refl eq_refl eq_refl eq_refl) as Hacc.
  cbv zeta in Hacc.
  destruct (@upload_response_matches_store demo_runtime (VDict demo_upload)
              empty_state _ _ Hacc)
    as (dd & k & rec & m & Hdd & _ & _ & Hmeds & _).
  injection Hdd as <-.
  eexists _, k. split; [exact Hacc|exact Hmeds].
Defined.

(** An upload without [meds] stores nothing. *)
Lemma upload_failure_stores_nothing_witness :
  devices_meta
    (fst (@run demo_runtime _ (@upload_medbox demo_runtime (VDict demo_upload_no_meds))
            empty_state)) = devices_meta empty_state.
Proof.
  apply (@upload_failure_stores_nothing demo_runtime (VDict demo_upload_no_meds)
           empty_state _
           (snd (@run demo_runtime _ (@upload_medbox demo_runtime (VDict demo_upload_no_meds))
                   empty_state))).
  - apply surjective_pairing.
  - intros b Hb. vm_compute in Hb. discriminate Hb.
Defined.

(** An upload with device id 5 after one for "X". *)
Lemma upload_non_string_id_is_invisible_witness :
  let s := @serve demo_runtime empty_state (ReqUpload (VDict demo_upload)) in
  exists s',
    fst (@run demo_runtime _ (@upload_medbox demo_runtime (VDict demo_upload_numeric)) s) = s' /\
    is_Some (devices_meds s' !! KNum 5 0) /\
    snd (@run demo_runtime _ (get_snapshot "5") s') =
      snd (@run demo_runtime _ (get_snapshot "5") s).
Proof.
  intros s.
  pose proof (@upload_accepted demo_runtime demo_upload_numeric (KNum 5 0) s
                eq_refl eq_refl eq_refl eq_refl) as Hacc.
  cbv zeta in Hacc.
  destruct (@upload_non_string_id_is_invisible demo_runtime demo_upload_numeric (KNum 5 0)
              s _ _ Hacc eq_refl ltac:(done))
    as (Hsome & Hsame).
  eexists. split; [by rewrite Hacc|]. split; [exact Hsome|exact (proj2 (Hsame "5"))].
Defined.

(** Deleting the unknown device "X" on a fresh server. *)
Lemma delete_device_twice_witness :
  devices_meta empty_state !! KStr "X" = None /\
  @run demo_runtime _ (delete_device "X") empty_state =
    (empty_state, Some (RedirectTo "index" None)).
Proof.
  split; [reflexivity|].
  exact (proj1 (@delete_device_twice demo_runtime "X" empty_state)
           eq_refl eq_refl eq_refl eq_refl).
Defined.

(** Three commands pending for "X"; the second is deleted before the poll. *)
Lemma deleted_command_never_delivered_witness :
  let s := @enqueue_all demo_runtime (VStr "X") [demo_add; demo_edit; demo_delete] empty_state in
  "X" ≠ "" /\
  0 <= 1 < Z.of_nat (length (pending_of (KStr "X") s)) /\
  exists s2,
    @run demo_runtime _ (@get_changes demo_runtime (Some "X"))
      (fst (@run demo_runtime _ (delete_pending "X" 1) s)) =
    (s2, Some (Json 200 (VDict [("commands", VList [VDict demo_add; VDict demo_delete])]))).
Proof.
  intros s.
  assert (0 <= 1 < Z.of_nat (length (pending_of (KStr "X") s))) as Hin
    by (split; [done|by vm_compute]).
  split; [done|]. split; [exact Hin|].
  destruct (@deleted_command_never_delivered demo_runtime "X" 1 s ltac:(done) Hin)
    as (s2 & t & Hrun & _).
  exists s2. exact Hrun.
Defined.

(** One add command pending for "X", then the poll. *)
Lemma history_entry_extends_command_witness :
  let s := @enqueue_all demo_runtime (VStr "X") [demo_add] empty_state in
  "X" ≠ "" /\
  exists s' t,
    history_of (KStr "X") s' =
      [demo_add ++ [("status", VStr "sent"); ("sent_at", VStr t)]] /\
    fst (@run demo_runtime _ (@get_changes demo_runtime (Some "X")) s) = s'.
Proof.
  intros s. split; [done|].
  assert (Forall (fun c => dict_get "status" c = None /\ dict_get "sent_at" c = None)
                 (pending_of (KStr "X") s)) as Hplain
    by (repeat constructor).
  destruct (@history_entry_extends_command demo_runtime "X" s ltac:(done) Hplain)
    as (s' & t & Hrun & Hh).
  exists s', t. split; [exact Hh|by rewrite Hrun].
Defined.
(** ** Where the specification and the code part *)


(** C8 as stated fails: an add command for 99:75 is answered with 200
    and queued as it is. *)
Lemma add_command_accepts_hour_99 :
  snd (@run demo_runtime _ (@add_command demo_runtime "X" demo_bad_time_request) empty_state) =
    Some (Json 200 (queued_body "X" demo_bad_time)) /\
  pending_of (KStr "X")
    (fst (@run demo_runtime _ (@add_command demo_runtime "X" demo_bad_time_request) empty_state)) =
    [demo_bad_time] /\
  dict_get "hour" demo_bad_time = Some (VInt 99) /\
  dict_get "minute" demo_bad_time = Some (VInt 75) /\
  ~ (0 <= 99 <= 23) /\ ~ (0 <= 75 <= 59).
Proof.
  split; [by vm_compute|]. split; [by vm_compute|].
  split; [reflexivity|]. split; [reflexivity|]. split; lia.
Qed.
